(** * radical.entk Task: a shallow embedding of [radical/entk/task/task.py]

    The [Task] class is a bag of Python attributes guarded by property
    setters, together with a dictionary export/import pair ([to_dict],
    [from_dict]) and a description check ([_validate]).  The embedding
    keeps the dynamic typing of the source: attribute values are Python
    values, setters inspect the run-time type of what they are given, and
    every method is a computation over the receiver that either returns
    or raises, possibly after having already mutated some attributes. *)

From Stdlib Require Import Ascii String List ZArith Bool Lia.
Import ListNotations.
Open Scope string_scope.
Open Scope list_scope.

(** ** Python 2 values *)

(** The source is Python 2 ([unicode], [print] statements).  A [str]
    object carries whether it lives in the interpreter's intern table:
    identifier-like string constants of a module do, strings computed or
    decoded at run time do not.  Two interned [str] objects are the same
    object exactly when they have the same characters; this is what the
    [is] operator observes in [_validate].  An object of any other
    class ([float], [tuple], [set], a user class) is known by the name of
    its class and by its truth value in a boolean context ([0.0], [()]
    and [set()] are false). *)
#[warnings="-register-all"]
Inductive value : Type :=
| VNone
| VBool (b : bool)
| VInt (n : Z)
| VLong (n : Z)
| VStr (interned : bool) (s : string)
| VUnicode (s : string)
| VList (l : list value)
| VDict (d : list (value * value))
| VObj (cls : string) (truth : bool).

(** A dictionary is kept as its item list. *)
Definition dict : Type := list (value * value).

(** A string constant written in the source. *)
Definition lit (s : string) : value := VStr true s.

Inductive pytype : Type :=
| TNoneType | TBool | TInt | TLong | TStr | TUnicode | TList | TDict
| TOther (cls : string).

(** [type(v)] *)
Definition type_of (v : value) : pytype :=
  match v with
  | VNone => TNoneType
  | VBool _ => TBool
  | VInt _ => TInt
  | VLong _ => TLong
  | VStr _ _ => TStr
  | VUnicode _ => TUnicode
  | VList _ => TList
  | VDict _ => TDict
  | VObj c _ => TOther c
  end.

(** [isinstance(v, str)]: [unicode] is not a subclass of [str]. *)
Definition isinstance_str (v : value) : bool :=
  match v with VStr _ _ => true | _ => false end.

(** [isinstance(v, unicode)] *)
Definition isinstance_unicode (v : value) : bool :=
  match v with VUnicode _ => true | _ => false end.

(** [isinstance(v, int)]: [bool] is a subclass of [int], [long] is not. *)
Definition isinstance_int (v : value) : bool :=
  match v with VInt _ | VBool _ => true | _ => false end.

(** [isinstance(v, list)] *)
Definition isinstance_list (v : value) : bool :=
  match v with VList _ => true | _ => false end.

(** [isinstance(v, dict)] *)
Definition isinstance_dict (v : value) : bool :=
  match v with VDict _ => true | _ => false end.

(** [type(v) in [type(None), int]]: an exact type test, so [True] and
    [1L] do not pass. *)
Definition type_in_None_int (v : value) : bool :=
  match type_of v with TNoneType | TInt => true | _ => false end.

(** [v == s] for a [str] constant [s]: a [str] or a [unicode] with the
    same (ASCII) characters. *)
Definition eq_str (v : value) (s : string) : bool :=
  match v with
  | VStr _ a | VUnicode a => String.eqb a s
  | _ => false
  end.

(** [v in [None, s]] for a [str] constant [s]. *)
Definition in_None_or (s : string) (v : value) : bool :=
  match v with
  | VNone => true
  | _ => eq_str v s
  end.

(** [a is b] when [b] is an interned [str] constant. *)
Definition is_ (a b : value) : bool :=
  match a, b with
  | VStr true x, VStr true y => String.eqb x y
  | _, _ => false
  end.

(** Truth value of an object, as tested by [if v:] and [not v]. *)
Definition truthy (v : value) : bool :=
  match v with
  | VNone => false
  | VBool b => b
  | VInt n | VLong n => negb (Z.eqb n 0)
  | VStr _ s | VUnicode s => negb (String.eqb s "")
  | VList l => match l with [] => false | _ => true end
  | VDict d => match d with [] => false | _ => true end
  | VObj _ truth => truth
  end.

(** ** Dictionaries with string-constant keys *)

(** [k in d], [d[k]] *)
Fixpoint dict_lookup (d : dict) (k : string) : option value :=
  match d with
  | [] => None
  | (k', v) :: d' => if eq_str k' k then Some v else dict_lookup d' k
  end.

(** [d.get(k)] *)
Definition dict_get (d : dict) (k : string) : value :=
  match dict_lookup d k with
  | Some v => v
  | None => VNone
  end.

(** [d[k] = v]: overwrite the entry in place, or add one. *)
Fixpoint dict_setitem (d : dict) (k : string) (v : value) : dict :=
  match d with
  | [] => [(lit k, v)]
  | (k', v') :: d' =>
      if eq_str k' k then (k', v) :: d' else (k', v') :: dict_setitem d' k v
  end.

(** [set(d.keys()) <= set(ks)] *)
Definition keys_subset (d : dict) (ks : list string) : bool :=
  forallb (fun kv => existsb (eq_str (fst kv)) ks) d.

(** ** The [states] module *)

(** Modelled from the spec: [radical/entk/states.py] is not part of the
    sources at hand; the state constants are the names of the task state
    machine of the specification.  They are string constants of a module,
    hence interned. *)
Module states.
Definition INITIAL : value := lit "INITIAL".
Definition SCHEDULING : value := lit "SCHEDULING".
Definition SCHEDULED : value := lit "SCHEDULED".
Definition SUBMITTING : value := lit "SUBMITTING".
Definition SUBMITTED : value := lit "SUBMITTED".
Definition EXECUTING : value := lit "EXECUTING".
Definition DONE : value := lit "DONE".
Definition FAILED : value := lit "FAILED".
Definition CANCELED : value := lit "CANCELED".
End states.

(** ** Exceptions *)

(** The exceptions the class raises ([radical.entk.exceptions] shadows
    the builtin [TypeError] and [ValueError]); [AttributeError] is what
    reading a missing attribute gives. *)
Inductive exn : Type :=
| TypeError
| ValueError
| MissingError
| AttributeError.

Inductive result (A : Type) : Type :=
| Ok (a : A)
| Raise (e : exn).
Arguments Ok {A} a.
Arguments Raise {A} e.

(** ** The [Task] object *)

(** One field per instance attribute.  Attributes that every write path
    guards with [isinstance(_, list)] or [isinstance(_, dict)] are kept
    as the list or item list itself; [_uid] may be missing.

    Lists and dictionaries are kept by value, without object identity.
    Rebinding an attribute is rendered exactly; the two kinds of update
    in place, the [append] of the [state] setter and the item assignments
    of the [cpu_reqs] and [gpu_reqs] setters, are rendered for the
    attribute they are made through.  In the source the same list or
    dictionary object may also be held by (or inside) another list- or
    dictionary-valued attribute, which then shows the update too; the
    properties below are stated for the attribute written, for
    attributes holding immutable values, and for setters that rebind. *)
Record Task : Type := mkTask {
  _uid : option value;
  _name : value;
  _state : value;
  _pre_exec : list value;
  _executable : list value;
  _arguments : list value;
  _post_exec : list value;
  _cpu_reqs : dict;
  _gpu_reqs : dict;
  _upload_input_data : list value;
  _copy_input_data : list value;
  _link_input_data : list value;
  _copy_output_data : list value;
  _download_output_data : list value;
  _path : value;
  _exit_code : value;
  _state_history : list value;
  _p_stage : value;
  _p_pipeline : value
}.

Definition assign_uid (v : option value) (t : Task) : Task :=
  mkTask v (_name t) (_state t) (_pre_exec t) (_executable t) (_arguments t)
  (_post_exec t) (_cpu_reqs t) (_gpu_reqs t) (_upload_input_data t)
  (_copy_input_data t) (_link_input_data t) (_copy_output_data t)
  (_download_output_data t) (_path t) (_exit_code t) (_state_history t)
  (_p_stage t) (_p_pipeline t).

Definition assign_name (v : value) (t : Task) : Task :=
  mkTask (_uid t) v (_state t) (_pre_exec t) (_executable t) (_arguments t)
  (_post_exec t) (_cpu_reqs t) (_gpu_reqs t) (_upload_input_data t)
  (_copy_input_data t) (_link_input_data t) (_copy_output_data t)
  (_download_output_data t) (_path t) (_exit_code t) (_state_history t)
  (_p_stage t) (_p_pipeline t).

Definition assign_state (v : value) (t : Task) : Task :=
  mkTask (_uid t) (_name t) v (_pre_exec t) (_executable t) (_arguments t)
  (_post_exec t) (_cpu_reqs t) (_gpu_reqs t) (_upload_input_data t)
  (_copy_input_data t) (_link_input_data t) (_copy_output_data t)
  (_download_output_data t) (_path t) (_exit_code t) (_state_history t)
  (_p_stage t) (_p_pipeline t).

Definition assign_pre_exec (v : list value) (t : Task) : Task :=
  mkTask (_uid t) (_name t) (_state t) v (_executable t) (_arguments t)
  (_post_exec t) (_cpu_reqs t) (_gpu_reqs t) (_upload_input_data t)
  (_copy_input_data t) (_link_input_data t) (_copy_output_data t)
  (_download_output_data t) (_path t) (_exit_code t) (_state_history t)
  (_p_stage t) (_p_pipeline t).

Definition assign_executable (v : list value) (t : Task) : Task :=
  mkTask (_uid t) (_name t) (_state t) (_pre_exec t) v (_arguments t)
  (_post_exec t) (_cpu_reqs t) (_gpu_reqs t) (_upload_input_data t)
  (_copy_input_data t) (_link_input_data t) (_copy_output_data t)
  (_download_output_data t) (_path t) (_exit_code t) (_state_history t)
  (_p_stage t) (_p_pipeline t).

Definition assign_arguments (v : list value) (t : Task) : Task :=
  mkTask (_uid t) (_name t) (_state t) (_pre_exec t) (_executable t) v
  (_post_exec t) (_cpu_reqs t) (_gpu_reqs t) (_upload_input_data t)
  (_copy_input_data t) (_link_input_data t) (_copy_output_data t)
  (_download_output_data t) (_path t) (_exit_code t) (_state_history t)
  (_p_stage t) (_p_pipeline t).

Definition assign_post_exec (v : list value) (t : Task) : Task :=
  mkTask (_uid t) (_name t) (_state t) (_pre_exec t) (_executable t)
  (_arguments t) v (_cpu_reqs t) (_gpu_reqs t) (_upload_input_data t)
  (_copy_input_data t) (_link_input_data t) (_copy_output_data t)
  (_download_output_data t) (_path t) (_exit_code t) (_state_history t)
  (_p_stage t) (_p_pipeline t).

Definition assign_cpu_reqs (v : dict) (t : Task) : Task :=
  mkTask (_uid t) (_name t) (_state t) (_pre_exec t) (_executable t)
  (_arguments t) (_post_exec t) v (_gpu_reqs t) (_upload_input_data t)
  (_copy_input_data t) (_link_input_data t) (_copy_output_data t)
  (_download_output_data t) (_path t) (_exit_code t) (_state_history t)
  (_p_stage t) (_p_pipeline t).

Definition assign_gpu_reqs (v : dict) (t : Task) : Task :=
  mkTask (_uid t) (_name t) (_state t) (_pre_exec t) (_executable t)
  (_arguments t) (_post_exec t) (_cpu_reqs t) v (_upload_input_data t)
  (_copy_input_data t) (_link_input_data t) (_copy_output_data t)
  (_download_output_data t) (_path t) (_exit_code t) (_state_history t)
  (_p_stage t) (_p_pipeline t).

Definition assign_upload_input_data (v : list value) (t : Task) : Task :=
  mkTask (_uid t) (_name t) (_state t) (_pre_exec t) (_executable t)
  (_arguments t) (_post_exec t) (_cpu_reqs t) (_gpu_reqs t) v
  (_copy_input_data t) (_link_input_data t) (_copy_output_data t)
  (_download_output_data t) (_path t) (_exit_code t) (_state_history t)
  (_p_stage t) (_p_pipeline t).

Definition assign_copy_input_data (v : list value) (t : Task) : Task :=
  mkTask (_uid t) (_name t) (_state t) (_pre_exec t) (_executable t)
  (_arguments t) (_post_exec t) (_cpu_reqs t) (_gpu_reqs t)
  (_upload_input_data t) v (_link_input_data t) (_copy_output_data t)
  (_download_output_data t) (_path t) (_exit_code t) (_state_history t)
  (_p_stage t) (_p_pipeline t).

Definition assign_link_input_data (v : list value) (t : Task) : Task :=
  mkTask (_uid t) (_name t) (_state t) (_pre_exec t) (_executable t)
  (_arguments t) (_post_exec t) (_cpu_reqs t) (_gpu_reqs t)
  (_upload_input_data t) (_copy_input_data t) v (_copy_output_data t)
  (_download_output_data t) (_path t) (_exit_code t) (_state_history t)
  (_p_stage t) (_p_pipeline t).

Definition assign_copy_output_data (v : list value) (t : Task) : Task :=
  mkTask (_uid t) (_name t) (_state t) (_pre_exec t) (_executable t)
  (_arguments t) (_post_exec t) (_cpu_reqs t) (_gpu_reqs t)
  (_upload_input_data t) (_copy_input_data t) (_link_input_data t) v
  (_download_output_data t) (_path t) (_exit_code t) (_state_history t)
  (_p_stage t) (_p_pipeline t).

Definition assign_download_output_data (v : list value) (t : Task) : Task :=
  mkTask (_uid t) (_name t) (_state t) (_pre_exec t) (_executable t)
  (_arguments t) (_post_exec t) (_cpu_reqs t) (_gpu_reqs t)
  (_upload_input_data t) (_copy_input_data t) (_link_input_data t)
  (_copy_output_data t) v (_path t) (_exit_code t) (_state_history t)
  (_p_stage t) (_p_pipeline t).

Definition assign_path (v : value) (t : Task) : Task :=
  mkTask (_uid t) (_name t) (_state t) (_pre_exec t) (_executable t)
  (_arguments t) (_post_exec t) (_cpu_reqs t) (_gpu_reqs t)
  (_upload_input_data t) (_copy_input_data t) (_link_input_data t)
  (_copy_output_data t) (_download_output_data t) v (_exit_code t)
  (_state_history t) (_p_stage t) (_p_pipeline t).

Definition assign_exit_code (v : value) (t : Task) : Task :=
  mkTask (_uid t) (_name t) (_state t) (_pre_exec t) (_executable t)
  (_arguments t) (_post_exec t) (_cpu_reqs t) (_gpu_reqs t)
  (_upload_input_data t) (_copy_input_data t) (_link_input_data t)
  (_copy_output_data t) (_download_output_data t) (_path t) v
  (_state_history t) (_p_stage t) (_p_pipeline t).

Definition assign_state_history (v : list value) (t : Task) : Task :=
  mkTask (_uid t) (_name t) (_state t) (_pre_exec t) (_executable t)
  (_arguments t) (_post_exec t) (_cpu_reqs t) (_gpu_reqs t)
  (_upload_input_data t) (_copy_input_data t) (_link_input_data t)
  (_copy_output_data t) (_download_output_data t) (_path t) (_exit_code t) v
  (_p_stage t) (_p_pipeline t).

Definition assign_p_stage (v : value) (t : Task) : Task :=
  mkTask (_uid t) (_name t) (_state t) (_pre_exec t) (_executable t)
  (_arguments t) (_post_exec t) (_cpu_reqs t) (_gpu_reqs t)
  (_upload_input_data t) (_copy_input_data t) (_link_input_data t)
  (_copy_output_data t) (_download_output_data t) (_path t) (_exit_code t)
  (_state_history t) v (_p_pipeline t).

Definition assign_p_pipeline (v : value) (t : Task) : Task :=
  mkTask (_uid t) (_name t) (_state t) (_pre_exec t) (_executable t)
  (_arguments t) (_post_exec t) (_cpu_reqs t) (_gpu_reqs t)
  (_upload_input_data t) (_copy_input_data t) (_link_input_data t)
  (_copy_output_data t) (_download_output_data t) (_path t) (_exit_code t)
  (_state_history t) (_p_stage t) v.

(** ** Methods as computations over the receiver *)

(** A method body runs against [self]; it ends with a return value or an
    exception, and in both cases leaves [self] as mutated so far. *)
Definition M (A : Type) : Type := Task -> Task * result A.

Definition ret {A} (a : A) : M A := fun self => (self, Ok a).

Definition raise {A} (e : exn) : M A := fun self => (self, Raise e).

Definition bind {A B} (m : M A) (k : A -> M B) : M B :=
  fun self =>
    match m self with
    | (self', Ok a) => k a self'
    | (self', Raise e) => (self', Raise e)
    end.

Definition modify (f : Task -> Task) : M unit := fun self => (f self, Ok tt).

Definition read {A} (f : Task -> A) : M A := fun self => (self, Ok (f self)).

Notation "m1 ;; m2" := (bind m1 (fun _ => m2))
  (at level 61, right associativity).
Notation "x <- m1 ;; m2" := (bind m1 (fun x => m2))
  (at level 61, m1 at next level, right associativity).

(** The receiver after the call. *)
Definition after {A} (m : M A) (self : Task) : Task := fst (m self).

(** How the call ended. *)
Definition outcome {A} (m : M A) (self : Task) : result A := snd (m self).

Definition raises {A} (m : M A) (self : Task) : bool :=
  match outcome m self with Raise _ => true | Ok _ => false end.

(** ** [Task.__init__] *)

(** [ru.generate_id('radical.entk.task')] is external; the identifier it
    returns is passed in as [fresh_uid].  With [duplicate = True] the
    attribute [_uid] is not created at all. *)
Definition Task_init (duplicate : bool) (fresh_uid : string) : Task :=
  {| _uid := if duplicate then None else Some (VStr false fresh_uid);
     _name := lit "";
     _state := states.INITIAL;
     _pre_exec := [];
     _executable := [];
     _arguments := [];
     _post_exec := [];
     _cpu_reqs := [(lit "processes", VInt 1);
                   (lit "process_type", VNone);
                   (lit "threads_per_process", VInt 1);
                   (lit "thread_type", VNone)];
     _gpu_reqs := [(lit "processes", VInt 0);
                   (lit "process_type", VNone);
                   (lit "threads_per_process", VInt 0);
                   (lit "thread_type", VNone)];
     _upload_input_data := [];
     _copy_input_data := [];
     _link_input_data := [];
     _copy_output_data := [];
     _download_output_data := [];
     _path := VNone;
     _exit_code := VNone;
     _state_history := [states.INITIAL];
     _p_stage := VNone;
     _p_pipeline := VNone |}.

(** ** Getters *)

(** [uid]: [None] when the attribute was never created. *)
Definition uid (t : Task) : value :=
  match _uid t with Some v => v | None => VNone end.

Definition name (t : Task) : value := _name t.
Definition state (t : Task) : value := _state t.
Definition pre_exec (t : Task) : list value := _pre_exec t.
Definition executable (t : Task) : list value := _executable t.
Definition arguments (t : Task) : list value := _arguments t.
Definition post_exec (t : Task) : list value := _post_exec t.
Definition cpu_reqs (t : Task) : dict := _cpu_reqs t.
Definition gpu_reqs (t : Task) : dict := _gpu_reqs t.
Definition upload_input_data (t : Task) : list value := _upload_input_data t.
Definition copy_input_data (t : Task) : list value := _copy_input_data t.
Definition link_input_data (t : Task) : list value := _link_input_data t.
Definition copy_output_data (t : Task) : list value := _copy_output_data t.
Definition download_output_data (t : Task) : list value :=
  _download_output_data t.
Definition exit_code (t : Task) : value := _exit_code t.
Definition path (t : Task) : value := _path t.
Definition parent_stage (t : Task) : value := _p_stage t.
Definition parent_pipeline (t : Task) : value := _p_pipeline t.
Definition state_history (t : Task) : list value := _state_history t.

(** ** Setters *)

(** The common shape: store the value when it is a [str], else raise. *)
Definition str_setter (assign : value -> Task -> Task) (val : value)
  : M unit :=
  if isinstance_str val then modify (assign val) else raise TypeError.

(** The common shape: store the value when it is a [list], else raise. *)
Definition list_setter (assign : list value -> Task -> Task) (val : value)
  : M unit :=
  match val with
  | VList l => modify (assign l)
  | _ => raise TypeError
  end.

Definition set_uid (val : value) : M unit :=
  if isinstance_str val then modify (assign_uid (Some val))
  else raise TypeError.

Definition set_name : value -> M unit := str_setter assign_name.

(** [state.setter]: two statements, the assignment and the [append]. *)
Definition set_state (val : value) : M unit :=
  if isinstance_str val then
    modify (assign_state val) ;;
    modify (fun self => assign_state_history (_state_history self ++ [val]) self)
  else raise TypeError.

Definition set_pre_exec : value -> M unit := list_setter assign_pre_exec.

Definition set_executable (val : value) : M unit :=
  match val with
  | VList l => modify (assign_executable l)
  | VStr _ _ => modify (assign_executable [val])
  | _ => raise TypeError
  end.

Definition set_arguments : value -> M unit := list_setter assign_arguments.

Definition set_post_exec : value -> M unit := list_setter assign_post_exec.

Definition expected_keys : list string :=
  ["processes"; "threads_per_process"; "process_type"; "thread_type"].

(** The body shared by [cpu_reqs.setter] and [gpu_reqs.setter]; they
    differ in the dictionary attribute they write to (and in texts of the
    error messages).  Each entry is checked and stored in turn, so a
    later failure leaves the earlier entries already overwritten. *)
Definition reqs_setter (current : Task -> dict)
    (assign : dict -> Task -> Task) (val : value) : M unit :=
  let store k v := modify (fun self => assign (dict_setitem (current self) k v) self) in
  match val with
  | VDict d =>
      if keys_subset d expected_keys then
        (if type_in_None_int (dict_get d "processes")
         then store "processes" (dict_get d "processes")
         else raise TypeError) ;;
        (if in_None_or "MPI" (dict_get d "process_type")
         then store "process_type" (dict_get d "process_type")
         else raise ValueError) ;;
        (if type_in_None_int (dict_get d "threads_per_process")
         then store "threads_per_process" (dict_get d "threads_per_process")
         else raise TypeError) ;;
        (if in_None_or "OpenMP" (dict_get d "thread_type")
         then store "thread_type" (dict_get d "thread_type")
         else raise ValueError)
      else raise MissingError
  | _ => raise TypeError
  end.

Definition set_cpu_reqs : value -> M unit :=
  reqs_setter _cpu_reqs assign_cpu_reqs.

Definition set_gpu_reqs : value -> M unit :=
  reqs_setter _gpu_reqs assign_gpu_reqs.

Definition set_upload_input_data : value -> M unit :=
  list_setter assign_upload_input_data.

Definition set_copy_input_data : value -> M unit :=
  list_setter assign_copy_input_data.

Definition set_link_input_data : value -> M unit :=
  list_setter assign_link_input_data.

Definition set_copy_output_data : value -> M unit :=
  list_setter assign_copy_output_data.

Definition set_download_output_data : value -> M unit :=
  list_setter assign_download_output_data.

Definition set_exit_code (val : value) : M unit :=
  if isinstance_int val then modify (assign_exit_code val)
  else raise TypeError.

Definition set_path : value -> M unit := str_setter assign_path.

Definition set_parent_stage : value -> M unit := str_setter assign_p_stage.

Definition set_parent_pipeline : value -> M unit :=
  str_setter assign_p_pipeline.

(** ** [to_dict] *)

(** [self._uid], read without [hasattr]: [AttributeError] on a Task
    built with [duplicate = True] that never received a uid. *)
Definition read_uid : M value :=
  fun self =>
    match _uid self with
    | Some u => (self, Ok u)
    | None => (self, Raise AttributeError)
    end.

Definition to_dict : M dict :=
  u <- read_uid ;;
  read (fun self => [
    (lit "uid", u);
    (lit "name", _name self);
    (lit "state", _state self);
    (lit "state_history", VList (_state_history self));
    (lit "pre_exec", VList (_pre_exec self));
    (lit "executable", VList (_executable self));
    (lit "arguments", VList (_arguments self));
    (lit "post_exec", VList (_post_exec self));
    (lit "cpu_reqs", VDict (_cpu_reqs self));
    (lit "gpu_reqs", VDict (_gpu_reqs self));
    (lit "upload_input_data", VList (_upload_input_data self));
    (lit "copy_input_data", VList (_copy_input_data self));
    (lit "link_input_data", VList (_link_input_data self));
    (lit "copy_output_data", VList (_copy_output_data self));
    (lit "download_output_data", VList (_download_output_data self));
    (lit "exit_code", _exit_code self);
    (lit "path", _path self);
    (lit "parent_stage", _p_stage self);
    (lit "parent_pipeline", _p_pipeline self)]).

(** ** [from_dict] *)

(** [if k in d: if isinstance(d[k], str) or isinstance(d[k], unicode):
    self.<attr> = d[k] else: raise TypeError] *)
Definition load_str (d : dict) (k : string) (assign : value -> Task -> Task)
  : M unit :=
  match dict_lookup d k with
  | None => ret tt
  | Some v =>
      if isinstance_str v || isinstance_unicode v then modify (assign v)
      else raise TypeError
  end.

(** [if k in d: if isinstance(d[k], list): self.<attr> = d[k]
    else: raise TypeError] *)
Definition load_list (d : dict) (k : string)
    (assign : list value -> Task -> Task) : M unit :=
  match dict_lookup d k with
  | None => ret tt
  | Some (VList l) => modify (assign l)
  | Some _ => raise TypeError
  end.

(** The same for a [dict] entry. *)
Definition load_dict (d : dict) (k : string)
    (assign : dict -> Task -> Task) : M unit :=
  match dict_lookup d k with
  | None => ret tt
  | Some (VDict r) => modify (assign r)
  | Some _ => raise TypeError
  end.

(** [if k in d: if d[k]: if <type test>(d[k]): self.<attr> = d[k]
    else: raise TypeError]: an entry whose value is false in a boolean
    context is skipped before its type is looked at. *)
Definition load_if_true (d : dict) (k : string) (type_test : value -> bool)
    (assign : value -> Task -> Task) : M unit :=
  match dict_lookup d k with
  | None => ret tt
  | Some v =>
      if truthy v then
        if type_test v then modify (assign v) else raise TypeError
      else ret tt
  end.

Definition from_dict (d : dict) : M unit :=
  load_str d "uid" (fun v => assign_uid (Some v)) ;;
  load_str d "name" assign_name ;;
  match dict_lookup d "state" with
  | Some v =>
      if isinstance_str v || isinstance_unicode v then modify (assign_state v)
      else raise TypeError
  | None => modify (assign_state states.INITIAL)
  end ;;
  load_list d "state_history" assign_state_history ;;
  load_list d "pre_exec" assign_pre_exec ;;
  load_list d "executable" assign_executable ;;
  load_list d "arguments" assign_arguments ;;
  load_list d "post_exec" assign_post_exec ;;
  load_dict d "cpu_reqs" assign_cpu_reqs ;;
  load_dict d "gpu_reqs" assign_gpu_reqs ;;
  load_list d "upload_input_data" assign_upload_input_data ;;
  load_list d "copy_input_data" assign_copy_input_data ;;
  load_list d "link_input_data" assign_link_input_data ;;
  load_list d "copy_output_data" assign_copy_output_data ;;
  load_list d "download_output_data" assign_download_output_data ;;
  load_if_true d "exit_code" isinstance_int assign_exit_code ;;
  load_if_true d "path" (fun v => isinstance_str v || isinstance_unicode v)
    assign_path ;;
  load_str d "parent_stage" assign_p_stage ;;
  load_str d "parent_pipeline" assign_p_pipeline.

(** ** [_validate] *)

(** The state test is [is not], an identity test against the constant
    of the [states] module.  Both [raise] statements evaluate [self._uid]
    for the exception's arguments first. *)
Definition _validate : M unit :=
  st <- read _state ;;
  if negb (is_ st states.INITIAL) then
    _ <- read_uid ;; raise ValueError
  else
    exe <- read _executable ;;
    if negb (truthy (VList exe)) then
      _ <- read_uid ;; raise MissingError
    else ret tt.

(** ** The public surface as a type of operations *)

(** The attributes that have a setter. *)
Inductive attr : Type :=
| a_uid | a_name | a_state | a_pre_exec | a_executable | a_arguments
| a_post_exec | a_cpu_reqs | a_gpu_reqs | a_upload_input_data
| a_copy_input_data | a_link_input_data | a_copy_output_data
| a_download_output_data | a_exit_code | a_path | a_parent_stage
| a_parent_pipeline.

Definition setter (a : attr) : value -> M unit :=
  match a with
  | a_uid => set_uid
  | a_name => set_name
  | a_state => set_state
  | a_pre_exec => set_pre_exec
  | a_executable => set_executable
  | a_arguments => set_arguments
  | a_post_exec => set_post_exec
  | a_cpu_reqs => set_cpu_reqs
  | a_gpu_reqs => set_gpu_reqs
  | a_upload_input_data => set_upload_input_data
  | a_copy_input_data => set_copy_input_data
  | a_link_input_data => set_link_input_data
  | a_copy_output_data => set_copy_output_data
  | a_download_output_data => set_download_output_data
  | a_exit_code => set_exit_code
  | a_path => set_path
  | a_parent_stage => set_parent_stage
  | a_parent_pipeline => set_parent_pipeline
  end.

(** What a client can do to an existing Task: assign an attribute, export
    it, import a dictionary into it, validate it. *)
Inductive op : Type :=
| Assign (a : attr) (val : value)
| ToDict
| FromDict (d : dict)
| Validate.

Definition run_op (o : op) : M unit :=
  match o with
  | Assign a val => setter a val
  | ToDict => _ <- to_dict ;; ret tt
  | FromDict d => from_dict d
  | Validate => _validate
  end.

(** A client script: the operations run in order on the same Task, an
    exception raised by one of them being caught by the client. *)
Definition run_ops (os : list op) (t : Task) : Task :=
  fold_left (fun self o => after (run_op o) self) os t.

(** ** The task state machine of the specification *)

(** Written after the specification's transition table, to compare the
    [state] setter with: INITIAL -> SCHEDULING -> SCHEDULED -> SUBMITTING
    -> SUBMITTED -> EXECUTING -> {DONE, FAILED, CANCELED}, and every
    non-terminal state -> CANCELED. *)
Definition spec_terminal (s : value) : bool :=
  eq_str s "DONE" || eq_str s "FAILED" || eq_str s "CANCELED".

Definition spec_non_terminal (s : value) : bool :=
  eq_str s "INITIAL" || eq_str s "SCHEDULING" || eq_str s "SCHEDULED"
  || eq_str s "SUBMITTING" || eq_str s "SUBMITTED" || eq_str s "EXECUTING".

Definition spec_transition_allowed (cur new : value) : bool :=
  (eq_str cur "INITIAL" && eq_str new "SCHEDULING")
  || (eq_str cur "SCHEDULING" && eq_str new "SCHEDULED")
  || (eq_str cur "SCHEDULED" && eq_str new "SUBMITTING")
  || (eq_str cur "SUBMITTING" && eq_str new "SUBMITTED")
  || (eq_str cur "SUBMITTED" && eq_str new "EXECUTING")
  || (eq_str cur "EXECUTING" && spec_terminal new)
  || (spec_non_terminal cur && eq_str new "CANCELED").

(** ** Vocabulary of the statements *)

(** [preserves f m]: whatever way [m] ends, the observation [f] of the
    receiver is the same after as before. *)
Definition preserves {A B} (f : Task -> A) (m : M B) : Prop :=
  forall self, f (after m self) = f self.

(** The operations that may write [_uid]. *)
Definition changes_uid (o : op) : bool :=
  match o with
  | Assign a_uid _ => true
  | FromDict d =>
      match dict_lookup d "uid" with Some _ => true | None => false end
  | _ => false
  end.

(** The operations that may write [_exit_code] or [_path]. *)
Definition changes_exit_code_or_path (o : op) : bool :=
  match o with
  | Assign a_exit_code _ | Assign a_path _ => true
  | FromDict d =>
      match dict_lookup d "exit_code", dict_lookup d "path" with
      | None, None => false
      | _, _ => true
      end
  | _ => false
  end.

(** [Task()] as a user creates it. *)
Definition fresh0 : Task := Task_init false "radical.entk.task.0000".

(** A described task taken through the whole state machine. *)
Definition full_run : list op :=
  [ Assign a_executable (lit "sleep");
    Assign a_arguments (VList [lit "30"]);
    Validate;
    Assign a_state states.SCHEDULING;
    Assign a_state states.SCHEDULED;
    Assign a_state states.SUBMITTING;
    Assign a_state states.SUBMITTED;
    Assign a_state states.EXECUTING;
    Assign a_state states.DONE ].

(** [not l] for a list. *)
Definition is_empty (l : list value) : bool :=
  match l with [] => true | _ :: _ => false end.

(** The constraints on an assigned value, in the words of the
    attribute's documentation: a dictionary, over the four expected keys,
    with [processes] and [threads_per_process] an [int] or [None],
    [process_type] [None] or MPI, [thread_type] [None] or OpenMP. *)
Definition reqs_valid (val : value) : bool :=
  match val with
  | VDict d =>
      keys_subset d expected_keys
      && type_in_None_int (dict_get d "processes")
      && in_None_or "MPI" (dict_get d "process_type")
      && type_in_None_int (dict_get d "threads_per_process")
      && in_None_or "OpenMP" (dict_get d "thread_type")
  | _ => false
  end.

(** [val.get(k)], with [None] for what is not a dictionary. *)
Definition get_of (val : value) (k : string) : value :=
  match val with VDict d => dict_get d k | _ => VNone end.

(** The stored record [r] has, under each of the four keys, what [val]
    has under it. *)
Definition stored_as (r : dict) (val : value) : Prop :=
  dict_get r "processes" = get_of val "processes"
  /\ dict_get r "process_type" = get_of val "process_type"
  /\ dict_get r "threads_per_process" = get_of val "threads_per_process"
  /\ dict_get r "thread_type" = get_of val "thread_type".

(** The exception classes a refused value may meet. *)
Definition reqs_error_for (val : value) (e : exn) : Prop :=
  match val with
  | VDict d =>
      if keys_subset d expected_keys then e = TypeError \/ e = ValueError
      else e = MissingError
  | _ => e = TypeError
  end.

(** The test an entry undergoes, by key. *)
Definition entry_ok (k : string) (v : value) : bool :=
  if String.eqb k "process_type" then in_None_or "MPI" v
  else if String.eqb k "thread_type" then in_None_or "OpenMP" v
  else type_in_None_int v.

(** The entries that are present pass their tests. *)
Definition present_ok (d : dict) : bool :=
  forallb
    (fun k => match dict_lookup d k with
              | Some v => entry_ok k v
              | None => true
              end)
    expected_keys.

(** [target.from_dict(t.to_dict())] *)
Definition copy_into (target : Task) (t : Task) : Task * result unit :=
  match to_dict t with
  | (_, Ok d) => from_dict d target
  | (_, Raise e) => (target, Raise e)
  end.

(** [str] or [unicode] *)
Definition str_like (v : value) : bool :=
  isinstance_str v || isinstance_unicode v.

(** The Tasks whose export [from_dict] takes in whole: the uid is there,
    the string attributes are strings (the parents are assigned), and the
    exit code and the path are either true in a boolean context and of
    the right type, or already what the target holds. *)
Record importable (target t : Task) : Prop := {
  imp_uid : exists u, _uid t = Some u /\ str_like u = true;
  imp_name : str_like (_name t) = true;
  imp_state : str_like (_state t) = true;
  imp_stage : str_like (_p_stage t) = true;
  imp_pipeline : str_like (_p_pipeline t) = true;
  imp_exit_code :
    (truthy (_exit_code t) = true /\ isinstance_int (_exit_code t) = true)
    \/ (truthy (_exit_code t) = false /\ _exit_code target = _exit_code t);
  imp_path :
    (truthy (_path t) = true /\ str_like (_path t) = true)
    \/ (truthy (_path t) = false /\ _path target = _path t)
}.

(** A Task run to completion with exit code 0, both parents assigned. *)
Definition done0 : Task :=
  run_ops
    (full_run ++
     [ Assign a_parent_stage (lit "radical.entk.stage.0000");
       Assign a_parent_pipeline (lit "radical.entk.pipeline.0000");
       Assign a_path (lit "/scratch/unit.000000");
       Assign a_exit_code (VInt 0) ])
    fresh0.

(** A description as it is decoded from JSON, every string a [unicode]:
    a uid, the state INITIAL and an executable. *)
Definition loaded_description : dict :=
  [ (VUnicode "uid", VUnicode "radical.entk.task.0007");
    (VUnicode "state", VUnicode "INITIAL");
    (VUnicode "executable", VList [VUnicode "sleep"]) ].

(** The Task built from it: [t = Task(duplicate=True)], then
    [t.from_dict(description)]. *)
Definition loaded0 : Task :=
  after (from_dict loaded_description) (Task_init true "").

(** The same description without its [state] entry. *)
Definition stateless_description : dict :=
  [ (VUnicode "uid", VUnicode "radical.entk.task.0007");
    (VUnicode "executable", VList [VUnicode "sleep"]) ].

(** A Task that has been scheduled. *)
Definition scheduled0 : Task :=
  run_ops [ Assign a_executable (lit "sleep");
            Assign a_state states.SCHEDULING;
            Assign a_state states.SCHEDULED ] fresh0.

(** ** Further vocabulary: attributes, scripts, imports *)

(** The attribute [a] as its getter returns it. *)
Definition attribute (a : attr) (t : Task) : value :=
  match a with
  | a_uid => uid t
  | a_name => name t
  | a_state => state t
  | a_pre_exec => VList (pre_exec t)
  | a_executable => VList (executable t)
  | a_arguments => VList (arguments t)
  | a_post_exec => VList (post_exec t)
  | a_cpu_reqs => VDict (cpu_reqs t)
  | a_gpu_reqs => VDict (gpu_reqs t)
  | a_upload_input_data => VList (upload_input_data t)
  | a_copy_input_data => VList (copy_input_data t)
  | a_link_input_data => VList (link_input_data t)
  | a_copy_output_data => VList (copy_output_data t)
  | a_download_output_data => VList (download_output_data t)
  | a_exit_code => exit_code t
  | a_path => path t
  | a_parent_stage => parent_stage t
  | a_parent_pipeline => parent_pipeline t
  end.

(** The setters that rebind their attribute to the assigned value; the
    others update an object in place: the [state] setter appends to the
    history list, the [cpu_reqs] and [gpu_reqs] setters assign items of
    the stored dictionary. *)
Definition rebinds (a : attr) : bool :=
  match a with
  | a_state | a_cpu_reqs | a_gpu_reqs => false
  | _ => true
  end.

(** The attributes that only ever hold immutable values ([None], a
    string, an integer), so that no update in place can show through
    them. *)
Definition holds_immutable (b : attr) : bool :=
  match b with
  | a_uid | a_name | a_state | a_exit_code | a_path | a_parent_stage
  | a_parent_pipeline => true
  | _ => false
  end.

(** The two setters that write entry by entry. *)
Definition writes_entrywise (a : attr) : bool :=
  match a with a_cpu_reqs | a_gpu_reqs => true | _ => false end.

(** Scripts that never call [from_dict]. *)
Definition is_from_dict (o : op) : bool :=
  match o with FromDict _ => true | _ => false end.

Definition no_from_dict (os : list op) : bool :=
  forallb (fun o => negb (is_from_dict o)) os.

(** The state an operation records: the value of a state assignment
    that is a [str]. *)
Definition assigned_state (o : op) : list value :=
  match o with
  | Assign a_state val => if isinstance_str val then [val] else []
  | _ => []
  end.

(** The states a script records, in order. *)
Definition assigned_states (os : list op) : list value :=
  flat_map assigned_state os.

(** Scripts that neither assign the state nor call [from_dict]. *)
Definition keeps_state (o : op) : bool :=
  match o with
  | Assign a_state _ | FromDict _ => false
  | _ => true
  end.

(** The type tests of [from_dict], by kind of entry. *)
Inductive entry_kind : Type :=
| KStr          (* a [str] or [unicode] *)
| KList         (* a [list] *)
| KDict         (* a [dict] *)
| KIntIfTrue    (* an [int], tested only if the value is true *)
| KStrIfTrue.   (* a [str] or [unicode], tested only if the value is true *)

Definition passes (kd : entry_kind) (v : value) : bool :=
  match kd with
  | KStr => str_like v
  | KList => isinstance_list v
  | KDict => isinstance_dict v
  | KIntIfTrue => negb (truthy v) || isinstance_int v
  | KStrIfTrue => negb (truthy v) || str_like v
  end.

(** The keys [from_dict] looks at, in the order it does, and what it
    expects under each. *)
Definition from_dict_keys : list (string * entry_kind) :=
  [ ("uid", KStr); ("name", KStr); ("state", KStr);
    ("state_history", KList);
    ("pre_exec", KList); ("executable", KList); ("arguments", KList);
    ("post_exec", KList);
    ("cpu_reqs", KDict); ("gpu_reqs", KDict);
    ("upload_input_data", KList); ("copy_input_data", KList);
    ("link_input_data", KList); ("copy_output_data", KList);
    ("download_output_data", KList);
    ("exit_code", KIntIfTrue); ("path", KStrIfTrue);
    ("parent_stage", KStr); ("parent_pipeline", KStr) ].

(** Every known key that is present holds a value of the expected
    type. *)
Definition well_typed_entry (d : dict) (kk : string * entry_kind) : bool :=
  match dict_lookup d (fst kk) with
  | Some v => passes (snd kk) v
  | None => true
  end.

Definition well_typed_dict (d : dict) : bool :=
  forallb (well_typed_entry d) from_dict_keys.

(** [m] ends the same way on every receiver: normally if [b], with
    [TypeError] if not. *)
Definition decided_by (m : M unit) (b : bool) : Prop :=
  forall self, outcome m self = if b then Ok tt else Raise TypeError.

(** The Tasks an empty Task takes in whole from their export. *)
Record exportable (t : Task) : Prop := {
  exp_uid : exists u, _uid t = Some u /\ str_like u = true;
  exp_name : str_like (_name t) = true;
  exp_state : str_like (_state t) = true;
  exp_stage : str_like (_p_stage t) = true;
  exp_pipeline : str_like (_p_pipeline t) = true;
  exp_exit_code :
    _exit_code t = VNone
    \/ (truthy (_exit_code t) = true /\ isinstance_int (_exit_code t) = true);
  exp_path :
    _path t = VNone
    \/ (truthy (_path t) = true /\ str_like (_path t) = true)
}.

(** A failed Task: [done0] with exit code 1. *)
Definition failed0 : Task := after (set_exit_code (VInt 1)) done0.

(** * radical.entk ResourceHandle: the shared data [allocate] stages *)

(** When a handle has shared data, [allocate] turns each file name into
    a staging directive for the pilot; the only inputs are the names and
    the current working directory. *)

(** [s.split(sep)] for a one-character separator: the pieces between
    the separators, always at least one. *)
Fixpoint split (sep : Ascii.ascii) (s : string) : list string :=
  match s with
  | EmptyString => [EmptyString]
  | String c s' =>
      if Ascii.eqb c sep then EmptyString :: split sep s'
      else match split sep s' with
           | p :: ps => String c p :: ps
           | [] => [String c EmptyString]
           end
  end.

(** [s.count(c)] for a character [c]. *)
Fixpoint count (c : Ascii.ascii) (s : string) : nat :=
  match s with
  | EmptyString => 0
  | String c' s' => (if Ascii.eqb c' c then 1 else 0) + count c s'
  end.

(** [s.startswith('.')] *)
Definition startswith_dot (s : string) : bool :=
  match s with
  | String c _ => Ascii.eqb c "."%char
  | EmptyString => false
  end.

(** [s[1:]] *)
Definition tail (s : string) : string :=
  match s with
  | String _ s' => s'
  | EmptyString => EmptyString
  end.

(** [os.path.basename(p)]: what follows the last slash. *)
Definition basename (p : string) : string :=
  last (split "/"%char p) EmptyString.

(** The name under which a shared file is looked up: a name that starts
    with a dot and splits at its dots into three or two pieces is
    re-rooted at [cwd] ([os.getcwd()]); any other name is kept. *)
Definition shared_path (cwd f : string) : string :=
  if startswith_dot f then
    match split "."%char f with
    | [_; p1; p2] => (cwd ++ p1 ++ "." ++ p2)%string
    | [_; p1] => (cwd ++ p1)%string
    | _ => f
    end
  else f.

(** [radical.pilot.TRANSFER] *)
Inductive staging_action : Type := TRANSFER.

Record directive : Type := mkDirective {
  source : string;
  target : string;
  action : staging_action
}.

(** The body of the loop over [self._shared_data]. *)
Definition shared_dict (cwd f : string) : directive :=
  let f' := shared_path cwd f in
  {| source := ("file://" ++ f')%string;
     target := ("staging:///" ++ basename f')%string;
     action := TRANSFER |}.

(** The list handed to [pilot.stage_in]. *)
Definition shared_list (cwd : string) (shared_data : list string)
  : list directive :=
  map (shared_dict cwd) shared_data.

(** The key under which [to_dict] exports an attribute and [from_dict]
    looks for it. *)
Definition key_of (a : attr) : string :=
  match a with
  | a_uid => "uid"
  | a_name => "name"
  | a_state => "state"
  | a_pre_exec => "pre_exec"
  | a_executable => "executable"
  | a_arguments => "arguments"
  | a_post_exec => "post_exec"
  | a_cpu_reqs => "cpu_reqs"
  | a_gpu_reqs => "gpu_reqs"
  | a_upload_input_data => "upload_input_data"
  | a_copy_input_data => "copy_input_data"
  | a_link_input_data => "link_input_data"
  | a_copy_output_data => "copy_output_data"
  | a_download_output_data => "download_output_data"
  | a_exit_code => "exit_code"
  | a_path => "path"
  | a_parent_stage => "parent_stage"
  | a_parent_pipeline => "parent_pipeline"
  end.

(** * radical.ensemblemd utils: the unit loop of [extract_timing_info] *)

(** For every compute unit, [extract_timing_info] picks six time stamps
    (start and stop of execution, of input staging and of output
    staging) and takes the three differences in seconds; the averages it
    returns are floating-point numbers computed from these by numpy and
    are not part of the model.  Modelled here: which stamps the loop
    picks, and whether taking the differences raises.  Time stamps are
    [datetime] objects, kept as a number of microseconds; the variables
    start as the integer [0]. *)
Module utils.

(** An entry of [unit.state_history]. *)
Record history_entry : Type := mkEntry {
  state : string;
  timestamp : option Z
}.

(** A compute unit, as far as the function reads it. *)
Record compute_unit : Type := mkUnit {
  start_time : option Z;
  stop_time : option Z;
  state_history : list history_entry
}.

(** What a time variable holds: the initial [0] or a [datetime]. *)
Inductive tvar : Type :=
| Int0
| Stamp (ts : Z).

(** The local variables of the loop over the state history. *)
Record scan_vars : Type := mkVars {
  id_start : tvar;
  id_stop : tvar;
  od_start : tvar;
  od_stop : tvar;
  missing_state_ip : bool;
  missing_state_op : bool
}.

Definition initial_vars : scan_vars := mkVars Int0 Int0 Int0 Int0 false false.

Definition set_id_start (x : tvar) (v : scan_vars) : scan_vars :=
  mkVars x (id_stop v) (od_start v) (od_stop v)
    (missing_state_ip v) (missing_state_op v).

Definition set_id_stop (x : tvar) (v : scan_vars) : scan_vars :=
  mkVars (id_start v) x (od_start v) (od_stop v)
    (missing_state_ip v) (missing_state_op v).

Definition set_od_start (x : tvar) (v : scan_vars) : scan_vars :=
  mkVars (id_start v) (id_stop v) x (od_stop v)
    (missing_state_ip v) (missing_state_op v).

Definition set_od_stop (x : tvar) (v : scan_vars) : scan_vars :=
  mkVars (id_start v) (id_stop v) (od_start v) x
    (missing_state_ip v) (missing_state_op v).

Definition set_missing_state_ip (b : bool) (v : scan_vars) : scan_vars :=
  mkVars (id_start v) (id_stop v) (od_start v) (od_stop v)
    b (missing_state_op v).

Definition set_missing_state_op (b : bool) (v : scan_vars) : scan_vars :=
  mkVars (id_start v) (id_stop v) (od_start v) (od_stop v)
    (missing_state_ip v) b.

(** [if state.timestamp is not None: <var> = state.timestamp] *)
Definition take (set : tvar -> scan_vars -> scan_vars) (e : history_entry)
    (v : scan_vars) : scan_vars :=
  match timestamp e with
  | Some ts => set (Stamp ts) v
  | None => v
  end.

(** The last statement of the loop body, the output staging stop. *)
Definition body_done (e : history_entry) (v : scan_vars) : scan_vars :=
  if String.eqb (state e) "Done" then take set_od_stop e v else v.

(** From the output staging start on; an AgentStagingOutput entry
    without a time stamp ends the iteration ([continue]). *)
Definition body_output (e : history_entry) (v : scan_vars) : scan_vars :=
  let v :=
    if String.eqb (state e) "PendingAgentOutputStaging"
    then take set_od_start e v
    else set_missing_state_op true v in
  if missing_state_op v && String.eqb (state e) "AgentStagingOutput" then
    match timestamp e with
    | Some ts => body_done e (set_od_start (Stamp ts) v)
    | None => v
    end
  else body_done e v.

(** The input staging stop. *)
Definition body_execution (e : history_entry) (v : scan_vars) : scan_vars :=
  body_output e
    (if String.eqb (state e) "PendingExecution" then take set_id_stop e v
     else v).

(** The whole body of [for state in unit.state_history]; a StagingInput
    entry without a time stamp ends the iteration ([continue]). *)
Definition body (v : scan_vars) (e : history_entry) : scan_vars :=
  let v :=
    if String.eqb (state e) "PendingInputStaging"
    then take set_id_start e v
    else set_missing_state_ip true v in
  if missing_state_ip v && String.eqb (state e) "StagingInput" then
    match timestamp e with
    | Some ts => body_execution e (set_id_start (Stamp ts) v)
    | None => v
    end
  else body_execution e v.

(** The loop over the state history of one unit. *)
Definition scan (history : list history_entry) : scan_vars :=
  fold_left body history initial_vars.

(** [ex_start] and [ex_stop]: the unit's times if both are there. *)
Definition execution_times (u : compute_unit) : tvar * tvar :=
  match start_time u, stop_time u with
  | Some a, Some b => (Stamp a, Stamp b)
  | _, _ => (Int0, Int0)
  end.

(** What [(stop - start).total_seconds()] raises: nothing for two
    [datetime]s; [AttributeError] for two integers, whose difference is
    an integer; [TypeError] for an integer and a [datetime], which do
    not subtract. *)
Definition total_seconds_error (stop start : tvar) : option exn :=
  match stop, start with
  | Stamp _, Stamp _ => None
  | Int0, Int0 => Some AttributeError
  | _, _ => Some TypeError
  end.

(** The first of two possible exceptions. *)
Definition or_else (a b : option exn) : option exn :=
  match a with Some e => Some e | None => b end.

(** The three [append] statements that end the iteration for a unit. *)
Definition unit_error (u : compute_unit) : option exn :=
  let v := scan (state_history u) in
  or_else
    (total_seconds_error (snd (execution_times u)) (fst (execution_times u)))
    (or_else (total_seconds_error (id_stop v) (id_start v))
       (total_seconds_error (od_stop v) (od_start v))).

(** The loop over the units: the exception of the first unit that
    raises one. *)
Fixpoint timing_error (units : list compute_unit) : option exn :=
  match units with
  | [] => None
  | u :: rest => or_else (unit_error u) (timing_error rest)
  end.

(** The stamp of the last entry that has one among those whose state
    satisfies [p], starting from [init]. *)
Definition last_stamp_from (p : string -> bool) (init : tvar)
    (history : list history_entry) : tvar :=
  fold_left
    (fun acc e =>
       if p (state e) then
         match timestamp e with Some ts => Stamp ts | None => acc end
       else acc)
    history init.

Definition last_stamp (p : string -> bool) (history : list history_entry)
  : tvar :=
  last_stamp_from p Int0 history.

(** Some entry whose state satisfies [p] has a time stamp. *)
Definition has_stamp (p : string -> bool) (history : list history_entry)
  : bool :=
  existsb
    (fun e => p (state e)
              && match timestamp e with Some _ => true | None => false end)
    history.

Definition input_start (s : string) : bool :=
  String.eqb s "PendingInputStaging" || String.eqb s "StagingInput".

Definition output_start (s : string) : bool :=
  String.eqb s "PendingAgentOutputStaging"
  || String.eqb s "AgentStagingOutput".

(** A unit with all six stamps. *)
Definition complete (u : compute_unit) : bool :=
  match start_time u, stop_time u with
  | Some _, Some _ => true
  | _, _ => false
  end
  && has_stamp input_start (state_history u)
  && has_stamp (fun s => String.eqb s "PendingExecution") (state_history u)
  && has_stamp output_start (state_history u)
  && has_stamp (fun s => String.eqb s "Done") (state_history u).

End utils.

(** * Properties *)

(** ** Frame reasoning: what a method leaves untouched *)

Lemma preserves_ret {A B} (f : Task -> A) (b : B) : preserves f (ret b).
Proof. intro self. reflexivity. Qed.

Lemma preserves_raise {A B} (f : Task -> A) (e : exn) :
  preserves f (@raise B e).
Proof. intro self. reflexivity. Qed.

Lemma preserves_read {A B} (f : Task -> A) (g : Task -> B) :
  preserves f (read g).
Proof. intro self. reflexivity. Qed.

Lemma preserves_read_uid {A} (f : Task -> A) : preserves f read_uid.
Proof. intro self. unfold after, read_uid. destruct (_uid self); reflexivity. Qed.

Lemma preserves_modify {A} (f : Task -> A) (g : Task -> Task) :
  (forall self, f (g self) = f self) -> preserves f (modify g).
Proof. intros Hg self. apply Hg. Qed.

Lemma preserves_bind {A B C} (f : Task -> A) (m : M B) (k : B -> M C) :
  preserves f m -> (forall b, preserves f (k b)) -> preserves f (bind m k).
Proof.
  intros Hm Hk self. unfold after, bind.
  specialize (Hm self). unfold after in Hm.
  destruct (m self) as [self' [b | e]]; simpl in *.
  - rewrite <- Hm. apply Hk.
  - exact Hm.
Qed.

Lemma preserves_if {A B} (f : Task -> A) (c : bool) (m1 m2 : M B) :
  preserves f m1 -> preserves f m2 -> preserves f (if c then m1 else m2).
Proof. destruct c; auto. Qed.

Create HintDb frame.
#[local] Hint Resolve preserves_ret preserves_raise preserves_read
  preserves_read_uid preserves_bind preserves_if : frame.
#[local] Hint Extern 1 (preserves _ (modify _)) =>
  (apply preserves_modify; intro; reflexivity) : frame.

(** Walk down a method body, statement by statement. *)
Ltac frame_walk :=
  repeat first
    [ apply preserves_if
    | apply preserves_bind; [ | let b := fresh "b" in intro b ]
    | solve [ auto with frame ] ].

Lemma preserves_str_setter {A} (f : Task -> A) assign val :
  (forall v self, f (assign v self) = f self) ->
  preserves f (str_setter assign val).
Proof.
  intros H. unfold str_setter. apply preserves_if; auto with frame.
  apply preserves_modify. apply H.
Qed.

Lemma preserves_list_setter {A} (f : Task -> A) assign val :
  (forall l self, f (assign l self) = f self) ->
  preserves f (list_setter assign val).
Proof.
  intros H. unfold list_setter.
  destruct val; auto with frame. apply preserves_modify. apply H.
Qed.

Lemma preserves_reqs_setter {A} (f : Task -> A) current assign val :
  (forall r self, f (assign r self) = f self) ->
  preserves f (reqs_setter current assign val).
Proof.
  intros H. unfold reqs_setter.
  assert (Hs : forall k v,
    preserves f (modify (fun self => assign (dict_setitem (current self) k v) self))).
  { intros k v. apply preserves_modify. intro self. apply H. }
  cbv zeta. destruct val; auto with frame.
  frame_walk; apply Hs.
Qed.

Lemma preserves_load_str {A} (f : Task -> A) d k assign :
  (forall v self, f (assign v self) = f self) ->
  preserves f (load_str d k assign).
Proof.
  intros H. unfold load_str. destruct (dict_lookup d k); auto with frame.
  apply preserves_if; auto with frame. apply preserves_modify. apply H.
Qed.

Lemma preserves_load_list {A} (f : Task -> A) d k assign :
  (forall l self, f (assign l self) = f self) ->
  preserves f (load_list d k assign).
Proof.
  intros H. unfold load_list.
  destruct (dict_lookup d k) as [[]|]; auto with frame.
  apply preserves_modify. apply H.
Qed.

Lemma preserves_load_dict {A} (f : Task -> A) d k assign :
  (forall r self, f (assign r self) = f self) ->
  preserves f (load_dict d k assign).
Proof.
  intros H. unfold load_dict.
  destruct (dict_lookup d k) as [[]|]; auto with frame.
  apply preserves_modify. apply H.
Qed.

Lemma preserves_load_if_true {A} (f : Task -> A) d k test assign :
  (forall v self, f (assign v self) = f self) ->
  preserves f (load_if_true d k test assign).
Proof.
  intros H. unfold load_if_true. destruct (dict_lookup d k); auto with frame.
  repeat apply preserves_if; auto with frame. apply preserves_modify. apply H.
Qed.

Lemma preserves_validate {A} (f : Task -> A) : preserves f _validate.
Proof.
  unfold _validate. frame_walk.
Qed.

Lemma preserves_to_dict {A} (f : Task -> A) : preserves f to_dict.
Proof. unfold to_dict. auto with frame. Qed.

(** [_validate] and [to_dict] only read. *)
Lemma validate_pure (t : Task) : after _validate t = t.
Proof. exact (preserves_validate (fun self => self) t). Qed.

Lemma to_dict_pure (t : Task) : after to_dict t = t.
Proof. exact (preserves_to_dict (fun self => self) t). Qed.

#[local] Hint Extern 1 (preserves _ (str_setter _ _)) =>
  (apply preserves_str_setter; intros; reflexivity) : frame.
#[local] Hint Extern 1 (preserves _ (list_setter _ _)) =>
  (apply preserves_list_setter; intros; reflexivity) : frame.
#[local] Hint Extern 1 (preserves _ (reqs_setter _ _ _)) =>
  (apply preserves_reqs_setter; intros; reflexivity) : frame.
#[local] Hint Extern 1 (preserves _ (load_str _ _ _)) =>
  (apply preserves_load_str; intros; reflexivity) : frame.
#[local] Hint Extern 1 (preserves _ (load_list _ _ _)) =>
  (apply preserves_load_list; intros; reflexivity) : frame.
#[local] Hint Extern 1 (preserves _ (load_dict _ _ _)) =>
  (apply preserves_load_dict; intros; reflexivity) : frame.
#[local] Hint Extern 1 (preserves _ (load_if_true _ _ _ _)) =>
  (apply preserves_load_if_true; intros; reflexivity) : frame.
#[local] Hint Resolve preserves_validate preserves_to_dict : frame.

(** Open a setter to its body and walk it. *)
Ltac frame_setter :=
  unfold setter, set_uid, set_name, set_state, set_pre_exec, set_executable,
    set_arguments, set_post_exec, set_cpu_reqs, set_gpu_reqs,
    set_upload_input_data, set_copy_input_data, set_link_input_data,
    set_copy_output_data, set_download_output_data, set_exit_code, set_path,
    set_parent_stage, set_parent_pipeline;
  frame_walk.

(** *** Operations that leave the uid alone *)

Lemma op_preserves_uid (o : op) :
  changes_uid o = false -> preserves _uid (run_op o).
Proof.
  destruct o as [a val | | d | ]; simpl; intros H.
  - destruct a; try discriminate; try solve [frame_setter].
    unfold setter, set_executable. destruct val; auto with frame.
  - frame_walk.
  - unfold from_dict. unfold load_str at 1.
    destruct (dict_lookup d "uid"); [discriminate|].
    frame_walk. destruct (dict_lookup d "state"); frame_walk.
  - auto with frame.
Qed.

(** *** Operations that leave the exit code and the path alone *)

Lemma op_preserves_exit_code_path (o : op) :
  changes_exit_code_or_path o = false ->
  preserves (fun self => (_exit_code self, _path self)) (run_op o).
Proof.
  destruct o as [a val | | d | ]; simpl; intros H.
  - destruct a; try discriminate; try solve [frame_setter].
    unfold setter, set_executable. destruct val; auto with frame.
  - frame_walk.
  - unfold from_dict, load_if_true.
    destruct (dict_lookup d "exit_code"); [discriminate|].
    destruct (dict_lookup d "path"); [discriminate|].
    frame_walk. destruct (dict_lookup d "state"); frame_walk.
  - auto with frame.
Qed.

(** A script none of whose operations may change an observation leaves
    it as it was. *)
Lemma run_ops_preserves {A} (f : Task -> A) (allowed : op -> bool) :
  (forall o, allowed o = true -> preserves f (run_op o)) ->
  forall os t, forallb allowed os = true -> f (run_ops os t) = f t.
Proof.
  intros Hstep os. induction os as [| o os IH]; intros t Hall.
  - reflexivity.
  - simpl in Hall. apply andb_true_iff in Hall as [Ho Hos].
    unfold run_ops in *. simpl. rewrite (IH _ Hos). apply Hstep, Ho.
Qed.

(** ** The [state] setter *)

(** C1, as amended.  The [state] setter performs no transition check:
    for every Task, whatever its current state (a terminal one included),
    assigning any [str] succeeds, makes it the state and appends it to
    [state_history]; an assignment fails only for a value that is not a
    [str], and then with [TypeError]. *)
Theorem state_setter_checks_type_only (t : Task) (val : value) :
  let t' := after (set_state val) t in
  if isinstance_str val then
    outcome (set_state val) t = Ok tt
    /\ state t' = val
    /\ state_history t' = state_history t ++ [val]
  else
    outcome (set_state val) t = Raise TypeError.
Proof.
  destruct val; simpl; repeat split; reflexivity.
Qed.

(** C1 fails as stated: a Task in the terminal state DONE is assigned
    INITIAL, a transition the table does not have, and the assignment
    succeeds; the history then has an entry after a terminal one. *)
Lemma state_setter_accepts_any_transition :
  let t := after (set_state states.DONE) fresh0 in
  spec_terminal (state t) = true
  /\ spec_transition_allowed (state t) states.INITIAL = false
  /\ outcome (set_state states.INITIAL) t = Ok tt
  /\ state_history (after (set_state states.INITIAL) t)
     = [states.INITIAL; states.DONE; states.INITIAL].
Proof. repeat split; reflexivity. Qed.

(** C4.  A state assignment either succeeds, and then the value is a
    [str], the state is the value and is the last entry of the history,
    the history is the old one with exactly one entry appended (so its
    old entries are all there, in order); or it fails, and then the value
    is not a [str] and the Task is unchanged. *)
Theorem state_setter_appends (t : Task) (val : value) :
  let t' := after (set_state val) t in
  match outcome (set_state val) t with
  | Ok _ =>
      isinstance_str val = true
      /\ state t' = val
      /\ last (state_history t') VNone = state t'
      /\ state_history t' = state_history t ++ [val]
      /\ length (state_history t') = S (length (state_history t))
      /\ firstn (length (state_history t)) (state_history t')
         = state_history t
  | Raise e =>
      isinstance_str val = false
      /\ e = TypeError
      /\ t' = t
  end.
Proof.
  destruct val; simpl; try (repeat split; reflexivity).
  unfold state, state_history; simpl.
  repeat split.
  - apply last_last.
  - rewrite length_app. simpl. lia.
  - rewrite firstn_app, firstn_all, Nat.sub_diag. simpl. apply app_nil_r.
Qed.

(** ** The [executable] setter *)

(** C9.  Assigning [executable]: a [str] [s] stores the one-element list
    [[s]], a list is stored as it is, and a value of any other type is
    refused with [TypeError], the Task (its executable included) staying
    as it was. *)
Theorem executable_setter_spec (t : Task) (val : value) :
  let t' := after (set_executable val) t in
  match val with
  | VStr _ _ =>
      outcome (set_executable val) t = Ok tt /\ executable t' = [val]
  | VList l =>
      outcome (set_executable val) t = Ok tt /\ executable t' = l
  | _ =>
      outcome (set_executable val) t = Raise TypeError
      /\ t' = t /\ executable t' = executable t
  end.
Proof.
  destruct val; simpl; repeat split; reflexivity.
Qed.

(** ** [_validate] *)

(** What [_validate] does, in terms of its own tests: it raises if and
    only if the state is not the INITIAL constant itself (an identity
    test) or the executable list is empty; otherwise it returns.  It
    never changes the Task.  The exception is [ValueError] for the state
    and [MissingError] for the executable, unless the Task has no uid to
    report, in which case reading it gives [AttributeError]. *)
Lemma validate_spec (t : Task) :
  raises _validate t
    = negb (is_ (state t) states.INITIAL) || is_empty (executable t)
  /\ after _validate t = t
  /\ match outcome _validate t with
     | Ok _ => is_ (state t) states.INITIAL = true /\ executable t <> []
     | Raise e =>
         (negb (is_ (state t) states.INITIAL) = true /\
            (e = ValueError \/ e = AttributeError /\ _uid t = None))
         \/ (is_ (state t) states.INITIAL = true /\ executable t = [] /\
            (e = MissingError \/ e = AttributeError /\ _uid t = None))
     end.
Proof.
  split; [| split; [apply validate_pure |]];
    unfold raises, outcome, _validate, bind, read, read_uid, raise, ret,
      state, executable; simpl;
    destruct (is_ (_state t) states.INITIAL); simpl;
    destruct (_executable t); simpl;
    destruct (_uid t); simpl; auto 10; try (split; [reflexivity | discriminate]).
Qed.

(** For a state taken from an interned constant the identity test is the
    comparison of the characters. *)
Lemma is_INITIAL_interned (s : string) :
  is_ (lit s) states.INITIAL = eq_str (lit s) "INITIAL".
Proof. reflexivity. Qed.

(** A string that was not interned is never the constant, whatever its
    characters. *)
Lemma is_INITIAL_not_interned (s : string) :
  is_ (VStr false s) states.INITIAL = false
  /\ is_ (VUnicode s) states.INITIAL = false.
Proof. split; reflexivity. Qed.

(** C3 at a failing input.  A Task filled by [from_dict] from a decoded
    description has the state [u'INITIAL'], equal to the constant
    INITIAL, and a non-empty executable; yet [_validate] raises
    [ValueError], because it compares the state with [is not] and the
    loaded string is not the constant object.  The same description
    without its [state] entry, for which [from_dict] assigns the constant
    itself, gives a Task that validates. *)
Theorem validate_rejects_loaded_initial_task :
  outcome (from_dict loaded_description) (Task_init true "") = Ok tt
  /\ eq_str (state loaded0) "INITIAL" = true
  /\ eq_str states.INITIAL "INITIAL" = true
  /\ executable loaded0 = [VUnicode "sleep"]
  /\ outcome _validate loaded0 = Raise ValueError
  /\ state (after (from_dict stateless_description) (Task_init true ""))
     = states.INITIAL
  /\ outcome _validate
       (after (from_dict stateless_description) (Task_init true ""))
     = Ok tt.
Proof. repeat split; reflexivity. Qed.

(** ** A fresh Task *)

(** C5, as amended.  A freshly constructed Task is in state INITIAL, its
    history is [[INITIAL]], and its exit code and path are [None]; they
    stay [None] through every script of operations that contains no
    assignment to [exit_code] or [path] and no [from_dict] of a
    dictionary with one of these keys, whatever states the Task is taken
    through.  Nothing ties them to the state: on every Task [t'],
    whatever its state, the [exit_code] setter accepts any integer and
    the [path] setter any [str], and stores it; they refuse any other
    value with [TypeError] and then leave the attribute as it was. *)
Theorem fresh_task_spec (duplicate : bool) (fresh_uid : string)
    (os : list op) (t' : Task) (code dir : value) :
  forallb (fun o => negb (changes_exit_code_or_path o)) os = true ->
  let t := Task_init duplicate fresh_uid in
  state t = states.INITIAL
  /\ state_history t = [states.INITIAL]
  /\ exit_code t = VNone
  /\ path t = VNone
  /\ exit_code (run_ops os t) = VNone
  /\ path (run_ops os t) = VNone
  /\ outcome (set_exit_code code) t'
     = (if isinstance_int code then Ok tt else Raise TypeError)
  /\ exit_code (after (set_exit_code code) t')
     = (if isinstance_int code then code else exit_code t')
  /\ outcome (set_path dir) t'
     = (if isinstance_str dir then Ok tt else Raise TypeError)
  /\ path (after (set_path dir) t')
     = (if isinstance_str dir then dir else path t').
Proof.
  intros Hos t.
  assert (Hset :
    outcome (set_exit_code code) t'
      = (if isinstance_int code then Ok tt else Raise TypeError)
    /\ exit_code (after (set_exit_code code) t')
       = (if isinstance_int code then code else exit_code t')
    /\ outcome (set_path dir) t'
       = (if isinstance_str dir then Ok tt else Raise TypeError)
    /\ path (after (set_path dir) t')
       = (if isinstance_str dir then dir else path t')).
  { repeat split; [destruct code | destruct code | destruct dir
                   | destruct dir]; reflexivity. }
  assert (H : (_exit_code (run_ops os t), _path (run_ops os t))
              = (_exit_code t, _path t)).
  { apply (run_ops_preserves (fun self => (_exit_code self, _path self))
             (fun o => negb (changes_exit_code_or_path o))); [| exact Hos].
    intros o Ho. apply op_preserves_exit_code_path.
    now apply negb_true_iff. }
  injection H as He Hp.
  destruct Hset as (S1 & S2 & S3 & S4).
  unfold exit_code, path in *. rewrite He, Hp.
  repeat split; try reflexivity; assumption.
Qed.

Lemma fresh_task_spec_witness :
  forallb (fun o => negb (changes_exit_code_or_path o)) full_run = true
  /\ state fresh0 = states.INITIAL
  /\ state_history fresh0 = [states.INITIAL]
  /\ exit_code fresh0 = VNone
  /\ path fresh0 = VNone
  /\ exit_code (run_ops full_run fresh0) = VNone
  /\ path (run_ops full_run fresh0) = VNone
  /\ outcome (set_exit_code (VInt 1)) scheduled0
     = (if isinstance_int (VInt 1) then Ok tt else Raise TypeError)
  /\ exit_code (after (set_exit_code (VInt 1)) scheduled0)
     = (if isinstance_int (VInt 1) then VInt 1 else exit_code scheduled0)
  /\ outcome (set_path (lit "/scratch/unit.000000")) scheduled0
     = (if isinstance_str (lit "/scratch/unit.000000")
        then Ok tt else Raise TypeError)
  /\ path (after (set_path (lit "/scratch/unit.000000")) scheduled0)
     = (if isinstance_str (lit "/scratch/unit.000000")
        then lit "/scratch/unit.000000" else path scheduled0).
Proof.
  split; [reflexivity |].
  apply (fresh_task_spec false "radical.entk.task.0000" full_run scheduled0
           (VInt 1) (lit "/scratch/unit.000000")).
  reflexivity.
Defined.

(** C5 fails as stated: on a fresh Task, still INITIAL (neither terminal
    nor scheduled), the [exit_code] and [path] setters are accepted and
    the two attributes are no longer absent. *)
Lemma exit_code_and_path_set_while_initial :
  let t := run_ops [Assign a_exit_code (VInt 1);
                    Assign a_path (lit "/scratch/unit.000000")] fresh0 in
  state t = states.INITIAL
  /\ spec_terminal (state t) = false
  /\ state_history t = [states.INITIAL]
  /\ exit_code t = VInt 1
  /\ path t = lit "/scratch/unit.000000".
Proof. repeat split; reflexivity. Qed.

(** ** The uid *)

(** C7, as amended.  The uid of a Task is changed by two operations only:
    the public [uid] setter, which accepts any [str] (and refuses anything
    else with [TypeError], leaving the uid as it was), and [from_dict] of
    a dictionary that has a [uid] entry.  Every script made of other
    operations leaves the uid unchanged. *)
Theorem uid_changed_only_by_setter_or_from_dict (os : list op) (t : Task)
    (val : value) :
  forallb (fun o => negb (changes_uid o)) os = true ->
  _uid (run_ops os t) = _uid t
  /\ uid (run_ops os t) = uid t
  /\ _uid (after (set_uid val) t)
     = (if isinstance_str val then Some val else _uid t)
  /\ outcome (set_uid val) t
     = (if isinstance_str val then Ok tt else Raise TypeError).
Proof.
  intros Hos.
  assert (H : _uid (run_ops os t) = _uid t).
  { apply (run_ops_preserves _uid (fun o => negb (changes_uid o)));
      [| exact Hos].
    intros o Ho. apply op_preserves_uid. now apply negb_true_iff. }
  unfold uid. rewrite H.
  repeat split; destruct val; reflexivity.
Qed.

Lemma uid_changed_only_by_setter_or_from_dict_witness :
  forallb (fun o => negb (changes_uid o)) full_run = true
  /\ _uid (run_ops full_run fresh0) = _uid fresh0
  /\ uid (run_ops full_run fresh0) = uid fresh0
  /\ _uid (after (set_uid (lit "task.renamed")) fresh0)
     = (if isinstance_str (lit "task.renamed")
        then Some (lit "task.renamed") else _uid fresh0)
  /\ outcome (set_uid (lit "task.renamed")) fresh0
     = (if isinstance_str (lit "task.renamed")
        then Ok tt else Raise TypeError).
Proof.
  split; [reflexivity |].
  apply (uid_changed_only_by_setter_or_from_dict full_run fresh0
           (lit "task.renamed")).
  reflexivity.
Defined.

(** C7 fails as stated: the public [uid] setter renames an existing
    Task. *)
Lemma uid_setter_renames_task :
  let t := after (run_op (Assign a_uid (lit "task.renamed"))) fresh0 in
  outcome (run_op (Assign a_uid (lit "task.renamed"))) fresh0 = Ok tt
  /\ uid fresh0 = VStr false "radical.entk.task.0000"
  /\ uid t = lit "task.renamed"
  /\ uid t <> uid fresh0.
Proof. repeat split; try reflexivity. discriminate. Qed.

(** ** The resource requirement setters *)

Lemma dict_lookup_setitem (d : dict) (k k2 : string) (v : value) :
  dict_lookup (dict_setitem d k v) k2
  = if String.eqb k k2 then Some v else dict_lookup d k2.
Proof.
  induction d as [| [k' v'] d IH]; simpl.
  - reflexivity.
  - destruct (eq_str k' k) eqn:Ek; simpl.
    + destruct (String.eqb k k2) eqn:E.
      * apply String.eqb_eq in E. subst k2. now rewrite Ek.
      * replace (eq_str k' k2) with false; [reflexivity |].
        destruct k'; simpl in *; try reflexivity;
          apply String.eqb_eq in Ek; subst; now rewrite E.
    + rewrite IH. destruct (String.eqb k k2) eqn:E.
      * apply String.eqb_eq in E. subst k2. now rewrite Ek.
      * reflexivity.
Qed.

Lemma dict_get_setitem (d : dict) (k k2 : string) (v : value) :
  dict_get (dict_setitem d k v) k2
  = if String.eqb k k2 then v else dict_get d k2.
Proof.
  unfold dict_get. rewrite dict_lookup_setitem.
  now destruct (String.eqb k k2).
Qed.

Section ReqsSetter.

Variable current : Task -> dict.
Variable assign : dict -> Task -> Task.
Hypothesis current_assign : forall r self, current (assign r self) = r.

Lemma reqs_setter_accepts (t : Task) (d : dict) :
  reqs_valid (VDict d) = true ->
  reqs_setter current assign (VDict d) t
  = (assign
       (dict_setitem
          (dict_setitem
             (dict_setitem
                (dict_setitem (current t)
                   "processes" (dict_get d "processes"))
                "process_type" (dict_get d "process_type"))
             "threads_per_process" (dict_get d "threads_per_process"))
          "thread_type" (dict_get d "thread_type"))
       (assign
          (dict_setitem
             (dict_setitem
                (dict_setitem (current t)
                   "processes" (dict_get d "processes"))
                "process_type" (dict_get d "process_type"))
             "threads_per_process" (dict_get d "threads_per_process"))
          (assign
             (dict_setitem
                (dict_setitem (current t)
                   "processes" (dict_get d "processes"))
                "process_type" (dict_get d "process_type"))
             (assign
                (dict_setitem (current t)
                   "processes" (dict_get d "processes"))
                t))),
     Ok tt).
Proof.
  unfold reqs_valid. intros H.
  repeat (apply andb_true_iff in H as [H ?]).
  unfold reqs_setter, bind, modify, raise.
  repeat match goal with E : _ = true |- _ => rewrite E; clear E end.
  simpl. now rewrite !current_assign.
Qed.

Lemma reqs_setter_stores (t : Task) (d : dict) :
  reqs_valid (VDict d) = true ->
  outcome (reqs_setter current assign (VDict d)) t = Ok tt
  /\ stored_as (current (after (reqs_setter current assign (VDict d)) t))
       (VDict d).
Proof.
  intros H. unfold outcome, after.
  rewrite (reqs_setter_accepts t d H). simpl.
  rewrite current_assign.
  split; [reflexivity |].
  unfold stored_as, get_of. rewrite !dict_get_setitem. simpl.
  repeat split; reflexivity.
Qed.

Lemma reqs_setter_refuses (t : Task) (val : value) :
  reqs_valid val = false ->
  exists e, outcome (reqs_setter current assign val) t = Raise e
            /\ reqs_error_for val e.
Proof.
  unfold outcome, reqs_setter, reqs_valid, reqs_error_for, bind, modify,
    raise.
  destruct val; intros H; try (eexists; split; reflexivity).
  destruct (keys_subset d expected_keys); simpl in *;
    [| eexists; split; reflexivity].
  destruct (type_in_None_int (dict_get d "processes")); simpl in *;
    [| eexists; split; [reflexivity | now left]].
  destruct (in_None_or "MPI" (dict_get d "process_type")); simpl in *;
    [| eexists; split; [reflexivity | now right]].
  destruct (type_in_None_int (dict_get d "threads_per_process"));
    simpl in *; [| eexists; split; [reflexivity | now left]].
  destruct (in_None_or "OpenMP" (dict_get d "thread_type")); simpl in *;
    [discriminate | eexists; split; [reflexivity | now right]].
Qed.

End ReqsSetter.

(** C6.  Assigning [cpu_reqs] or [gpu_reqs] checks the value then and
    there.  A value that meets the constraints ([reqs_valid]) is accepted
    and the record then holds its four entries; any other value makes the
    assignment raise: [TypeError] for what is not a dictionary,
    [MissingError] for a dictionary with a key outside the four,
    [TypeError] or [ValueError] for an entry of the wrong type or
    value. *)
Theorem reqs_setters_validate (t : Task) (val : value) :
  (if reqs_valid val then
     outcome (set_cpu_reqs val) t = Ok tt
     /\ stored_as (cpu_reqs (after (set_cpu_reqs val) t)) val
   else
     exists e, outcome (set_cpu_reqs val) t = Raise e
               /\ reqs_error_for val e)
  /\
  (if reqs_valid val then
     outcome (set_gpu_reqs val) t = Ok tt
     /\ stored_as (gpu_reqs (after (set_gpu_reqs val) t)) val
   else
     exists e, outcome (set_gpu_reqs val) t = Raise e
               /\ reqs_error_for val e).
Proof.
  unfold set_cpu_reqs, set_gpu_reqs, cpu_reqs, gpu_reqs.
  destruct (reqs_valid val) eqn:Hv; split.
  - destruct val; try discriminate.
    now apply reqs_setter_stores.
  - destruct val; try discriminate.
    now apply reqs_setter_stores.
  - now apply reqs_setter_refuses.
  - now apply reqs_setter_refuses.
Qed.

(** A refused assignment is not undone: the entries checked before the
    failing one are already overwritten. *)
Example cpu_reqs_partial_update :
  let val := VDict [(lit "thread_type", lit "pthreads")] in
  outcome (set_cpu_reqs val) fresh0 = Raise ValueError
  /\ dict_get (cpu_reqs fresh0) "processes" = VInt 1
  /\ dict_get (cpu_reqs (after (set_cpu_reqs val) fresh0)) "processes"
     = VNone.
Proof. repeat split; reflexivity. Qed.

Example gpu_reqs_accepts_full_record :
  let val := VDict [(lit "processes", VInt 2); (lit "process_type", lit "MPI");
                    (lit "threads_per_process", VInt 4);
                    (lit "thread_type", lit "OpenMP")] in
  reqs_valid val = true
  /\ gpu_reqs (after (set_gpu_reqs val) fresh0)
     = [(lit "processes", VInt 2); (lit "process_type", lit "MPI");
        (lit "threads_per_process", VInt 4);
        (lit "thread_type", lit "OpenMP")].
Proof. split; reflexivity. Qed.

Lemma present_ok_valid (d : dict) :
  keys_subset d expected_keys = true -> present_ok d = true ->
  reqs_valid (VDict d) = true.
Proof.
  intros Hk Hp. unfold reqs_valid. rewrite Hk.
  unfold present_ok, expected_keys in Hp. simpl in Hp.
  unfold dict_get, entry_ok in *. simpl in Hp.
  repeat (apply andb_true_iff in Hp as [? Hp]).
  destruct (dict_lookup d "processes"), (dict_lookup d "process_type"),
    (dict_lookup d "threads_per_process"), (dict_lookup d "thread_type");
    simpl;
    repeat match goal with E : _ = true |- _ => rewrite E; clear E end;
    reflexivity.
Qed.

Lemma stored_as_absent (r d : dict) (k : string) :
  stored_as r (VDict d) -> In k expected_keys -> dict_lookup d k = None ->
  dict_get r k = VNone.
Proof.
  intros (H1 & H2 & H3 & H4) Hin Hk.
  assert (Hg : dict_get d k = VNone) by (unfold dict_get; now rewrite Hk).
  simpl in Hin, H1, H2, H3, H4.
  destruct Hin as [<- | [<- | [<- | [<- | []]]]]; congruence.
Qed.

(** C10, as amended.  A dictionary whose keys are among the four
    expected ones, but not all of them, and whose present entries each
    pass their own test, is accepted: no error is raised for the absent
    keys, and the stored record gets [None] under each absent key,
    whatever it held before.
    [MissingError] is raised exactly for a dictionary with a key outside
    the four expected ones. *)
Theorem reqs_setters_absent_keys (t : Task) (d : dict) (k : string)
    (val : value) :
  keys_subset d expected_keys = true ->
  present_ok d = true ->
  In k expected_keys ->
  dict_lookup d k = None ->
  (outcome (set_cpu_reqs (VDict d)) t = Ok tt
   /\ dict_get (cpu_reqs (after (set_cpu_reqs (VDict d)) t)) k = VNone)
  /\ (outcome (set_gpu_reqs (VDict d)) t = Ok tt
      /\ dict_get (gpu_reqs (after (set_gpu_reqs (VDict d)) t)) k = VNone)
  /\ (outcome (set_cpu_reqs val) t = Raise MissingError
      <-> exists d', val = VDict d' /\ keys_subset d' expected_keys = false)
  /\ (outcome (set_gpu_reqs val) t = Raise MissingError
      <-> exists d', val = VDict d' /\ keys_subset d' expected_keys = false).
Proof.
  intros Hk Hp Hin Hnone.
  pose proof (present_ok_valid d Hk Hp) as Hv.
  assert (Hmiss : forall current assign,
    outcome (reqs_setter current assign val) t = Raise MissingError
    <-> exists d', val = VDict d' /\ keys_subset d' expected_keys = false).
  { intros current assign. split.
    - unfold outcome, reqs_setter, bind, modify, raise.
      destruct val; simpl; try discriminate.
      destruct (keys_subset d0 expected_keys) eqn:E; [| now eauto].
      repeat match goal with
             | |- context [if ?c then _ else _] => destruct c; simpl
             end; discriminate.
    - intros (d' & -> & Hd'). unfold outcome, reqs_setter.
      now rewrite Hd'. }
  unfold set_cpu_reqs, set_gpu_reqs, cpu_reqs, gpu_reqs.
  repeat split; try apply Hmiss.
  - now apply reqs_setter_stores.
  - apply (stored_as_absent _ d k); auto.
    now apply reqs_setter_stores.
  - now apply reqs_setter_stores.
  - apply (stored_as_absent _ d k); auto.
    now apply reqs_setter_stores.
Qed.

Lemma reqs_setters_absent_keys_witness :
  let d := [(lit "processes", VInt 4)] in
  let val := VDict [(lit "cores", VInt 4)] in
  keys_subset d expected_keys = true
  /\ present_ok d = true
  /\ In "threads_per_process" expected_keys
  /\ dict_lookup d "threads_per_process" = None
  /\ (outcome (set_cpu_reqs (VDict d)) fresh0 = Ok tt
      /\ dict_get (cpu_reqs (after (set_cpu_reqs (VDict d)) fresh0))
           "threads_per_process" = VNone)
  /\ (outcome (set_gpu_reqs (VDict d)) fresh0 = Ok tt
      /\ dict_get (gpu_reqs (after (set_gpu_reqs (VDict d)) fresh0))
           "threads_per_process" = VNone)
  /\ (outcome (set_cpu_reqs val) fresh0 = Raise MissingError
      <-> exists d', val = VDict d' /\ keys_subset d' expected_keys = false)
  /\ (outcome (set_gpu_reqs val) fresh0 = Raise MissingError
      <-> exists d', val = VDict d' /\ keys_subset d' expected_keys = false).
Proof.
  intros d val.
  split; [reflexivity |].
  split; [reflexivity |].
  split; [simpl; auto |].
  split; [reflexivity |].
  apply (reqs_setters_absent_keys fresh0 d "threads_per_process" val);
    [reflexivity | reflexivity | simpl; auto | reflexivity].
Defined.

(** C10 fails as stated: a dictionary with the single key [processes],
    a strict subset of the four, is refused with [TypeError] when the
    value under it is not an integer, and the absent
    [threads_per_process] keeps its value instead of becoming [None].
    The same for [gpu_reqs]. *)
Lemma reqs_setter_refuses_ill_typed_subset :
  let d := [(lit "processes", lit "four")] in
  keys_subset d expected_keys = true
  /\ dict_lookup d "threads_per_process" = None
  /\ outcome (set_cpu_reqs (VDict d)) fresh0 = Raise TypeError
  /\ dict_get (cpu_reqs (after (set_cpu_reqs (VDict d)) fresh0))
       "threads_per_process" = VInt 1
  /\ outcome (set_gpu_reqs (VDict d)) fresh0 = Raise TypeError
  /\ dict_get (gpu_reqs (after (set_gpu_reqs (VDict d)) fresh0))
       "threads_per_process" = VInt 0.
Proof. repeat split; reflexivity. Qed.

(** The value the absent key had before is lost. *)
Example cpu_reqs_absent_key_overwritten :
  let d := [(lit "processes", VInt 4)] in
  dict_get (cpu_reqs fresh0) "threads_per_process" = VInt 1
  /\ cpu_reqs (after (set_cpu_reqs (VDict d)) fresh0)
     = [(lit "processes", VInt 4); (lit "process_type", VNone);
        (lit "threads_per_process", VNone); (lit "thread_type", VNone)].
Proof. split; reflexivity. Qed.

(** ** Export and import *)

Lemma copy_into_importable (target t : Task) :
  importable target t -> copy_into target t = (t, Ok tt).
Proof.
  intros [(u & Hu & Hus) Hn Hs Hst Hpi He Hp].
  unfold copy_into, to_dict, bind, read_uid, read. rewrite Hu.
  unfold from_dict, load_str, load_list, load_dict, load_if_true, bind,
    modify, ret, raise.
  unfold str_like in *.
  cbn [dict_lookup eq_str lit String.eqb Ascii.eqb Bool.eqb].
  rewrite Hus, Hn, Hs, Hst, Hpi.
  destruct t; cbn in *.
  destruct He as [[He1 He2] | [He1 He2]], Hp as [[Hp1 Hp2] | [Hp1 Hp2]];
    rewrite ?He1, ?He2, ?Hp1, ?Hp2; cbn;
    subst; try rewrite He1; try rewrite Hp1; cbn; try rewrite Hp1;
    try reflexivity.
Qed.

(** C2 at a failing input.  The export of a successful Task (state DONE,
    exit code 0) is imported into an empty Task without an error, and the
    copy has no exit code: the entry is skipped because [0] is false in a
    boolean context.  Every other attribute is reproduced. *)
Theorem from_dict_drops_exit_code_zero :
  let copy := fst (copy_into (Task_init true "") done0) in
  state done0 = states.DONE
  /\ exit_code done0 = VInt 0
  /\ snd (copy_into (Task_init true "") done0) = Ok tt
  /\ exit_code copy = VNone
  /\ copy <> done0
  /\ copy = assign_exit_code VNone done0.
Proof.
  repeat split; try reflexivity.
  intros H. apply (f_equal exit_code) in H. discriminate H.
Qed.

(** The same guard skips an empty path, so that the import keeps what
    the target had. *)
Example from_dict_keeps_target_path :
  let t := after (set_path (lit "")) done0 in
  let target := after (set_path (lit "/scratch/unit.000007"))
                  (Task_init true "") in
  path t = lit ""
  /\ snd (copy_into target t) = Ok tt
  /\ path (fst (copy_into target t)) = lit "/scratch/unit.000007".
Proof. repeat split; reflexivity. Qed.

(** A Task whose parents were never assigned exports [None] for them,
    which the import refuses. *)
Example from_dict_refuses_unassigned_parent :
  let t := run_ops full_run fresh0 in
  parent_stage t = VNone
  /\ snd (copy_into (Task_init true "") t) = Raise TypeError.
Proof. split; reflexivity. Qed.

(** With a true exit code the same Task is copied exactly. *)
Example from_dict_copies_failed_task :
  let t := after (set_exit_code (VInt 1)) done0 in
  copy_into (Task_init true "") t = (t, Ok tt).
Proof.
  intros t. apply copy_into_importable.
  constructor; try reflexivity.
  - eexists; split; reflexivity.
  - left; split; reflexivity.
  - left; split; reflexivity.
Qed.

(** ** Setters: what they touch and what they leave *)

Lemma setter_preserves_other (a b : attr) (val : value) :
  a <> b ->
  rebinds a || holds_immutable b = true ->
  preserves (attribute b) (setter a val).
Proof.
  intros Hab _.
  destruct a, b; try (exfalso; apply Hab; reflexivity);
    unfold attribute, uid, name, state, pre_exec, executable, arguments,
      post_exec, cpu_reqs, gpu_reqs, upload_input_data, copy_input_data,
      link_input_data, copy_output_data, download_output_data, exit_code,
      path, parent_stage, parent_pipeline;
    try solve [frame_setter];
    unfold setter, set_executable; destruct val; auto with frame.
Qed.

(** X1.  A setter leaves the other attributes alone.  After assigning
    attribute [a], whether the value was accepted or refused, another
    attribute [b] reads as before whenever the setter of [a] rebinds its
    attribute (every setter but those of [state], [cpu_reqs] and
    [gpu_reqs]) or [b] is one of the attributes that hold immutable
    values ([uid], [name], [state], [exit_code], [path], [parent_stage],
    [parent_pipeline]).  The three setters that update a list or a
    dictionary in place are left out for the list and dictionary
    attributes, which may hold that very object. *)
Theorem setter_frame (a b : attr) (val : value) (t : Task) :
  a <> b ->
  rebinds a || holds_immutable b = true ->
  attribute b (after (setter a val) t) = attribute b t.
Proof.
  intros Hab Hsafe. now apply setter_preserves_other.
Qed.

Lemma setter_frame_witness :
  a_cpu_reqs <> a_path
  /\ rebinds a_cpu_reqs || holds_immutable a_path = true
  /\ attribute a_path
       (after (setter a_cpu_reqs (VDict [(lit "thread_type", lit "pthreads")]))
          done0)
     = attribute a_path done0.
Proof.
  split; [discriminate |]. split; [reflexivity |].
  apply (setter_frame a_cpu_reqs a_path
           (VDict [(lit "thread_type", lit "pthreads")]) done0);
    [discriminate | reflexivity].
Defined.

(** X2.  Apart from [cpu_reqs] and [gpu_reqs], a refused assignment is
    refused with [TypeError] and leaves the whole Task as it was. *)
Theorem refused_assignment_changes_nothing (a : attr) (val : value)
    (t : Task) :
  writes_entrywise a = false ->
  raises (setter a val) t = true ->
  outcome (setter a val) t = Raise TypeError
  /\ after (setter a val) t = t.
Proof.
  intros Ha Hr.
  destruct a; try discriminate Ha;
    destruct val; try discriminate Hr; split; reflexivity.
Qed.

Lemma refused_assignment_changes_nothing_witness :
  writes_entrywise a_exit_code = false
  /\ raises (setter a_exit_code (lit "0")) done0 = true
  /\ outcome (setter a_exit_code (lit "0")) done0 = Raise TypeError
  /\ after (setter a_exit_code (lit "0")) done0 = done0.
Proof.
  split; [reflexivity |]. split; [reflexivity |].
  apply (refused_assignment_changes_nothing a_exit_code (lit "0") done0);
    reflexivity.
Defined.

(** ** The state history along a script *)

Lemma last_nonempty_default {A} (l : list A) (a d d' : A) :
  last (a :: l) d = last (a :: l) d'.
Proof.
  revert a. induction l as [| b l IH]; intros a.
  - reflexivity.
  - change (last (b :: l) d = last (b :: l) d'). apply IH.
Qed.

Lemma last_app_default {A} (l1 l2 : list A) (d : A) :
  last (l1 ++ l2) d = last l2 (last l1 d).
Proof.
  induction l1 as [| x l1 IH].
  - reflexivity.
  - destruct l2 as [| y l2].
    + now rewrite app_nil_r.
    + destruct l1 as [| z l1].
      * simpl. apply last_nonempty_default.
      * change (last ((z :: l1) ++ y :: l2) d
                = last (y :: l2) (last (z :: l1) d)).
        exact IH.
Qed.

Lemma op_preserves_state_and_history (o : op) :
  keeps_state o = true ->
  preserves (fun self => (_state self, _state_history self)) (run_op o).
Proof.
  destruct o as [a val | | d | ]; simpl; intros H; try discriminate.
  - destruct a; try discriminate; try solve [frame_setter].
    unfold setter, set_executable. destruct val; auto with frame.
  - frame_walk.
  - auto with frame.
Qed.

Lemma run_op_history (o : op) (t : Task) :
  is_from_dict o = false ->
  _state_history (after (run_op o) t) = _state_history t ++ assigned_state o
  /\ _state (after (run_op o) t) = last (assigned_state o) (_state t).
Proof.
  intros Ho.
  destruct (keeps_state o) eqn:Hk.
  - pose proof (op_preserves_state_and_history o Hk t) as H.
    injection H as Hs Hh.
    replace (assigned_state o) with (@nil value).
    + rewrite app_nil_r. now split.
    + destruct o as [[] ? | | |]; try reflexivity; discriminate.
  - destruct o as [a val | | d | ]; try discriminate.
    destruct a; try discriminate.
    destruct val; simpl; rewrite ?app_nil_r; split; reflexivity.
Qed.

Lemma run_ops_history (os : list op) (t : Task) :
  no_from_dict os = true ->
  _state_history (run_ops os t) = _state_history t ++ assigned_states os
  /\ _state (run_ops os t) = last (assigned_states os) (_state t).
Proof.
  revert t. induction os as [| o os IH]; intros t Hos.
  - simpl. rewrite app_nil_r. now split.
  - simpl in Hos. apply andb_true_iff in Hos as [Ho Hos].
    apply negb_true_iff in Ho.
    destruct (run_op_history o t Ho) as [Hh Hs].
    destruct (IH (after (run_op o) t) Hos) as [IHh IHs].
    unfold run_ops in *. simpl fold_left.
    unfold assigned_states in *. simpl flat_map.
    rewrite IHh, IHs, Hh, Hs, <- app_assoc, last_app_default.
    now split.
Qed.

(** X3.  Along any script without [from_dict], the state history only
    grows, by exactly the [str] values assigned to the state, in the
    order of their assignment; the state is the last of them, or the
    state before the script if there was none. *)
Theorem history_of_script (os : list op) (t : Task) :
  no_from_dict os = true ->
  state_history (run_ops os t) = state_history t ++ assigned_states os
  /\ state (run_ops os t) = last (assigned_states os) (state t).
Proof. apply run_ops_history. Qed.

Lemma history_of_script_witness :
  no_from_dict full_run = true
  /\ state_history (run_ops full_run fresh0)
     = state_history fresh0 ++ assigned_states full_run
  /\ state (run_ops full_run fresh0)
     = last (assigned_states full_run) (state fresh0).
Proof.
  split; [reflexivity |].
  apply (history_of_script full_run fresh0). reflexivity.
Defined.

(** X4.  Whatever is done to a freshly constructed Task short of
    [from_dict], its state history is never empty, begins with INITIAL,
    and ends with the current state. *)
Theorem fresh_task_history_invariant (duplicate : bool)
    (fresh_uid : string) (os : list op) :
  no_from_dict os = true ->
  let t := run_ops os (Task_init duplicate fresh_uid) in
  state_history t <> []
  /\ hd VNone (state_history t) = states.INITIAL
  /\ last (state_history t) VNone = state t.
Proof.
  intros Hos t.
  destruct (run_ops_history os (Task_init duplicate fresh_uid) Hos)
    as [Hh Hs].
  unfold state_history, state. subst t. rewrite Hh, Hs.
  simpl _state_history. simpl _state.
  split; [discriminate |]. split; [reflexivity |].
  apply (last_app_default [states.INITIAL]).
Qed.

Lemma fresh_task_history_invariant_witness :
  no_from_dict full_run = true
  /\ state_history (run_ops full_run fresh0) <> []
  /\ hd VNone (state_history (run_ops full_run fresh0)) = states.INITIAL
  /\ last (state_history (run_ops full_run fresh0)) VNone
     = state (run_ops full_run fresh0).
Proof.
  split; [reflexivity |].
  apply (fresh_task_history_invariant false "radical.entk.task.0000"
           full_run).
  reflexivity.
Defined.

(** ** [from_dict]: when it succeeds *)

Lemma decided_ret : decided_by (ret tt) true.
Proof. intro self. reflexivity. Qed.

Lemma decided_modify (f : Task -> Task) : decided_by (modify f) true.
Proof. intro self. reflexivity. Qed.

Lemma decided_raise : decided_by (raise TypeError) false.
Proof. intro self. reflexivity. Qed.

Lemma decided_bind (m1 m2 : M unit) (b1 b2 : bool) :
  decided_by m1 b1 -> decided_by m2 b2 ->
  decided_by (m1 ;; m2) (b1 && b2).
Proof.
  intros H1 H2 self. specialize (H1 self).
  unfold outcome, bind in *.
  destruct (m1 self) as [self' [[] | e]]; simpl in *.
  - destruct b1; [apply H2 | discriminate].
  - destruct b1; [discriminate | exact H1].
Qed.

Lemma decided_load_str d k assign :
  decided_by (load_str d k assign) (well_typed_entry d (k, KStr)).
Proof.
  unfold load_str, well_typed_entry, passes, str_like. simpl.
  destruct (dict_lookup d k) as [v |]; [| apply decided_ret].
  destruct (isinstance_str v || isinstance_unicode v);
    [apply decided_modify | apply decided_raise].
Qed.

Lemma decided_load_list d k assign :
  decided_by (load_list d k assign) (well_typed_entry d (k, KList)).
Proof.
  unfold load_list, well_typed_entry, passes. simpl.
  destruct (dict_lookup d k) as [[] |]; simpl;
    first [apply decided_ret | apply decided_modify | apply decided_raise].
Qed.

Lemma decided_load_dict d k assign :
  decided_by (load_dict d k assign) (well_typed_entry d (k, KDict)).
Proof.
  unfold load_dict, well_typed_entry, passes. simpl.
  destruct (dict_lookup d k) as [[] |]; simpl;
    first [apply decided_ret | apply decided_modify | apply decided_raise].
Qed.

Lemma decided_load_if_true d k test assign :
  decided_by (load_if_true d k test assign)
    (match dict_lookup d k with
     | Some v => negb (truthy v) || test v
     | None => true
     end).
Proof.
  unfold load_if_true.
  destruct (dict_lookup d k) as [v |]; [| apply decided_ret].
  destruct (truthy v); simpl; [| apply decided_ret].
  destruct (test v); [apply decided_modify | apply decided_raise].
Qed.

Lemma decided_load_state d :
  decided_by
    (match dict_lookup d "state" with
     | Some v =>
         if isinstance_str v || isinstance_unicode v
         then modify (assign_state v) else raise TypeError
     | None => modify (assign_state states.INITIAL)
     end)
    (well_typed_entry d ("state", KStr)).
Proof.
  unfold well_typed_entry, passes, str_like. simpl.
  destruct (dict_lookup d "state") as [v |]; [| apply decided_modify].
  destruct (isinstance_str v || isinstance_unicode v);
    [apply decided_modify | apply decided_raise].
Qed.

(** X5.  Whether [from_dict] succeeds depends on the dictionary alone,
    not on the Task it is called on: it returns normally exactly when
    every one of the nineteen known keys that is present holds a value of
    the expected type (an exit code or path that is false in a boolean
    context passing whatever its type), and it raises [TypeError]
    otherwise.  Unknown keys are ignored. *)
Theorem from_dict_outcome (d : dict) (t : Task) :
  outcome (from_dict d) t
  = if well_typed_dict d then Ok tt else Raise TypeError.
Proof.
  revert t. change (decided_by (from_dict d) (well_typed_dict d)).
  unfold from_dict, well_typed_dict, from_dict_keys.
  cbn [forallb]. rewrite andb_true_r.
  repeat (apply decided_bind;
          [first [ apply decided_load_str | apply decided_load_list
                 | apply decided_load_dict | apply decided_load_state
                 | apply decided_load_if_true ] |]).
  apply decided_load_str.
Qed.

(** An exit code that is false in a boolean context is passed over
    before its type is looked at, whatever its class. *)
Example from_dict_skips_false_exit_code :
  outcome (from_dict [(lit "exit_code", VObj "float" false)]) done0 = Ok tt
  /\ exit_code (after (from_dict [(lit "exit_code", VObj "float" false)])
                  done0)
     = exit_code done0
  /\ outcome (from_dict [(lit "exit_code", VObj "float" true)]) done0
     = Raise TypeError.
Proof.
  split; [| split]; vm_compute; reflexivity.
Qed.

(** ** Export, then import *)

(** X6.  The export of a Task, imported into a newly constructed Task
    (empty or not), reproduces the Task exactly, provided the Task has a
    uid, its name, state and two parents are strings, its exit code is
    [None] or a non-zero integer, and its path is [None] or a non-empty
    string. *)
Theorem export_import_roundtrip (t : Task) (duplicate : bool)
    (fresh_uid : string) :
  exportable t ->
  copy_into (Task_init duplicate fresh_uid) t = (t, Ok tt).
Proof.
  intros [Hu Hn Hs Hst Hpi He Hp].
  apply copy_into_importable. constructor; auto.
  - destruct He as [He | He]; [right | now left].
    rewrite He. split; reflexivity.
  - destruct Hp as [Hp | Hp]; [right | now left].
    rewrite Hp. split; reflexivity.
Qed.

Lemma failed0_exportable : exportable failed0.
Proof.
  constructor; try reflexivity.
  - eexists; split; reflexivity.
  - right; split; reflexivity.
  - right; split; reflexivity.
Defined.

Lemma export_import_roundtrip_witness :
  exportable failed0
  /\ copy_into (Task_init true "") failed0 = (failed0, Ok tt).
Proof.
  split; [exact failed0_exportable |].
  apply (export_import_roundtrip failed0 true ""). exact failed0_exportable.
Defined.

(** *** Importing a Task's own export *)

Lemma after_bind_fixed {A B} (m : M A) (k : A -> M B) (t : Task) :
  after m t = t -> (forall a, after (k a) t = t) -> after (bind m k) t = t.
Proof.
  unfold after, bind. intros Hm Hk.
  destruct (m t) as [t' [a | e]]; simpl in *; subst t'.
  - apply Hk.
  - reflexivity.
Qed.

Lemma load_str_fixed d k assign v t :
  dict_lookup d k = Some v -> assign v t = t ->
  after (load_str d k assign) t = t.
Proof.
  intros Hd Ha. unfold after, load_str. rewrite Hd.
  destruct (isinstance_str v || isinstance_unicode v); simpl; auto.
Qed.

Lemma load_list_fixed d k assign l t :
  dict_lookup d k = Some (VList l) -> assign l t = t ->
  after (load_list d k assign) t = t.
Proof.
  intros Hd Ha. unfold after, load_list. rewrite Hd. simpl; auto.
Qed.

Lemma load_dict_fixed d k assign r t :
  dict_lookup d k = Some (VDict r) -> assign r t = t ->
  after (load_dict d k assign) t = t.
Proof.
  intros Hd Ha. unfold after, load_dict. rewrite Hd. simpl; auto.
Qed.

Lemma load_if_true_fixed d k test assign v t :
  dict_lookup d k = Some v -> assign v t = t ->
  after (load_if_true d k test assign) t = t.
Proof.
  intros Hd Ha. unfold after, load_if_true. rewrite Hd.
  destruct (truthy v); [destruct (test v) |]; simpl; auto.
Qed.

(** X7.  Importing into a Task its own export never changes it, whether
    the import succeeds or stops at an entry it refuses. *)
Theorem import_own_export_changes_nothing (t : Task) :
  fst (copy_into t t) = t.
Proof.
  unfold copy_into, to_dict, bind, read_uid, read.
  destruct (_uid t) as [u |] eqn:Hu; [| reflexivity].
  change (after (from_dict
    [ (lit "uid", u); (lit "name", _name t); (lit "state", _state t);
      (lit "state_history", VList (_state_history t));
      (lit "pre_exec", VList (_pre_exec t));
      (lit "executable", VList (_executable t));
      (lit "arguments", VList (_arguments t));
      (lit "post_exec", VList (_post_exec t));
      (lit "cpu_reqs", VDict (_cpu_reqs t));
      (lit "gpu_reqs", VDict (_gpu_reqs t));
      (lit "upload_input_data", VList (_upload_input_data t));
      (lit "copy_input_data", VList (_copy_input_data t));
      (lit "link_input_data", VList (_link_input_data t));
      (lit "copy_output_data", VList (_copy_output_data t));
      (lit "download_output_data", VList (_download_output_data t));
      (lit "exit_code", _exit_code t); (lit "path", _path t);
      (lit "parent_stage", _p_stage t);
      (lit "parent_pipeline", _p_pipeline t) ]) t = t).
  unfold from_dict.
  repeat (apply after_bind_fixed; [| intros _]);
    first
      [ eapply load_str_fixed; [reflexivity |]
      | eapply load_list_fixed; [reflexivity |]
      | eapply load_dict_fixed; [reflexivity |]
      | eapply load_if_true_fixed; [reflexivity |]
      | cbn [dict_lookup eq_str lit String.eqb Ascii.eqb Bool.eqb];
        unfold after;
        destruct (isinstance_str (_state t) || isinstance_unicode (_state t));
        simpl ];
    destruct t; simpl in *; subst; reflexivity.
Qed.

(** ** [from_dict]: what it leaves behind *)

Lemma bind_ok_inv {A B} (m : M A) (k : A -> M B) (t : Task) (b : B) :
  outcome (bind m k) t = Ok b ->
  exists a, outcome m t = Ok a
            /\ outcome (k a) (after m t) = Ok b
            /\ after (bind m k) t = after (k a) (after m t).
Proof.
  unfold outcome, after, bind.
  destruct (m t) as [t' [a | e]]; simpl; intros H.
  - exists a. auto.
  - discriminate.
Qed.

(** X8.  After a successful [from_dict] the state is the dictionary's
    [state] entry, or INITIAL if it has none, and the state history is
    the dictionary's [state_history] entry, or the history the Task
    already had if it has none: the state is reset without a record, and
    nothing keeps the two in step. *)
Theorem from_dict_state_and_history (d : dict) (t : Task) :
  outcome (from_dict d) t = Ok tt ->
  state (after (from_dict d) t)
  = match dict_lookup d "state" with
    | Some v => v
    | None => states.INITIAL
    end
  /\ state_history (after (from_dict d) t)
     = match dict_lookup d "state_history" with
       | Some (VList l) => l
       | _ => state_history t
       end.
Proof.
  unfold from_dict, state, state_history. intros H.
  apply bind_ok_inv in H as (a1 & H1 & H & E1). rewrite E1. clear E1.
  apply bind_ok_inv in H as (a2 & H2 & H & E2). rewrite E2. clear E2.
  apply bind_ok_inv in H as (a3 & H3 & H & E3). rewrite E3. clear E3.
  apply bind_ok_inv in H as (a4 & H4 & H & E4). rewrite E4. clear E4 H.
  match goal with
  | |- _ (after ?rest _) = _ /\ _ =>
      assert (Hrest : preserves (fun s => (_state s, _state_history s)) rest)
        by frame_walk
  end.
  match goal with
  | |- _ (after _ ?t4) = _ /\ _ =>
      specialize (Hrest t4); injection Hrest as Hs Hh; rewrite Hs, Hh
  end.
  clear Hs Hh.
  assert (P1 : preserves _state_history
                 (load_str d "uid" (fun v => assign_uid (Some v))))
    by auto with frame.
  assert (P2 : preserves _state_history (load_str d "name" assign_name))
    by auto with frame.
  assert (P4 : preserves _state (load_list d "state_history"
                                   assign_state_history))
    by auto with frame.
  rewrite P4. clear P4.
  set (t1 := after (load_str d "uid" (fun v => assign_uid (Some v))) t) in *.
  set (t2 := after (load_str d "name" assign_name) t1) in *.
  specialize (P1 t). specialize (P2 t1). fold t1 in P1. fold t2 in P2.
  split.
  - clear H4. destruct (dict_lookup d "state") as [v |]; [| reflexivity].
    unfold outcome in H3.
    destruct (isinstance_str v || isinstance_unicode v);
      [reflexivity | discriminate].
  - assert (H3' : _state_history
             (after
                match dict_lookup d "state" with
                | Some v =>
                    if isinstance_str v || isinstance_unicode v
                    then modify (assign_state v)
                    else raise TypeError
                | None => modify (assign_state states.INITIAL)
                end t2) = _state_history t).
    { rewrite <- P1, <- P2.
      destruct (dict_lookup d "state") as [v |]; [| reflexivity].
      destruct (isinstance_str v || isinstance_unicode v); reflexivity. }
    unfold outcome, after, load_list in *.
    destruct (dict_lookup d "state_history") as [[] |];
      simpl in *; try discriminate; try exact H3'; reflexivity.
Qed.

Lemma from_dict_state_and_history_witness :
  let d := [(lit "name", lit "renamed")] in
  outcome (from_dict d) done0 = Ok tt
  /\ state (after (from_dict d) done0)
     = match dict_lookup d "state" with
       | Some v => v
       | None => states.INITIAL
       end
  /\ state_history (after (from_dict d) done0)
     = match dict_lookup d "state_history" with
       | Some (VList l) => l
       | _ => state_history done0
       end.
Proof.
  intros d. split; [reflexivity |].
  apply (from_dict_state_and_history d done0). reflexivity.
Defined.

(** X9.  [from_dict] does not undo what it has imported when it meets an
    entry it refuses.  The export of a Task without a parent stage (its
    other attributes being importable) makes [from_dict] raise
    [TypeError] on a new Task, which by then is a copy of the Task in
    everything but the parent pipeline. *)
Theorem import_without_parent_stage (t : Task) (duplicate : bool)
    (fresh_uid : string) :
  (exists u, _uid t = Some u /\ str_like u = true) ->
  str_like (_name t) = true ->
  str_like (_state t) = true ->
  _exit_code t = VNone
    \/ (truthy (_exit_code t) = true /\ isinstance_int (_exit_code t) = true) ->
  _path t = VNone
    \/ (truthy (_path t) = true /\ str_like (_path t) = true) ->
  _p_stage t = VNone ->
  copy_into (Task_init duplicate fresh_uid) t
  = (assign_p_pipeline VNone t, Raise TypeError).
Proof.
  intros (u & Hu & Hus) Hn Hs He Hp Hst.
  unfold copy_into, to_dict, bind, read_uid, read. rewrite Hu.
  unfold from_dict, load_str, load_list, load_dict, load_if_true, bind,
    modify, ret, raise.
  unfold str_like in *.
  cbn [dict_lookup eq_str lit String.eqb Ascii.eqb Bool.eqb].
  rewrite Hus, Hn, Hs, Hst.
  destruct t; cbn in *.
  destruct He as [He | [He1 He2]], Hp as [Hp | [Hp1 Hp2]];
    subst; rewrite ?He1, ?He2, ?Hp1, ?Hp2; cbn;
    rewrite ?He1, ?He2, ?Hp1, ?Hp2; cbn; reflexivity.
Qed.

Lemma import_without_parent_stage_witness :
  let t := run_ops full_run fresh0 in
  (exists u, _uid t = Some u /\ str_like u = true)
  /\ str_like (_name t) = true
  /\ str_like (_state t) = true
  /\ (_exit_code t = VNone
      \/ (truthy (_exit_code t) = true
          /\ isinstance_int (_exit_code t) = true))
  /\ (_path t = VNone
      \/ (truthy (_path t) = true /\ str_like (_path t) = true))
  /\ _p_stage t = VNone
  /\ copy_into (Task_init true "") t
     = (assign_p_pipeline VNone t, Raise TypeError).
Proof.
  intros t.
  assert (Hu : exists u, _uid t = Some u /\ str_like u = true)
    by (eexists; split; reflexivity).
  split; [exact Hu |].
  split; [reflexivity |]. split; [reflexivity |].
  split; [left; reflexivity |]. split; [left; reflexivity |].
  split; [reflexivity |].
  apply (import_without_parent_stage t true "");
    [exact Hu | reflexivity | reflexivity | left; reflexivity
    | left; reflexivity | reflexivity].
Defined.

(** ** Resource requirements, assigned twice *)

Lemma dict_setitem_present (d : dict) (k : string) (v : value) :
  dict_lookup d k = Some v -> dict_setitem d k v = d.
Proof.
  induction d as [| [k' v'] d IH]; simpl; [discriminate |].
  destruct (eq_str k' k).
  - now intros [= ->].
  - intros H. now rewrite IH.
Qed.

Section ReqsSetterTwice.

Variable current : Task -> dict.
Variable assign : dict -> Task -> Task.
Hypothesis current_assign : forall r self, current (assign r self) = r.
Hypothesis assign_assign :
  forall r r' self, assign r (assign r' self) = assign r self.

Lemma reqs_setter_twice (t : Task) (d : dict) :
  reqs_valid (VDict d) = true ->
  reqs_setter current assign (VDict d)
    (after (reqs_setter current assign (VDict d)) t)
  = reqs_setter current assign (VDict d) t.
Proof.
  intros H. unfold after.
  rewrite (reqs_setter_accepts current assign current_assign t d H).
  cbn [fst].
  rewrite (reqs_setter_accepts current assign current_assign _ d H).
  rewrite !current_assign, !assign_assign.
  rewrite (dict_setitem_present _ "processes");
    [| rewrite !dict_lookup_setitem; reflexivity].
  rewrite (dict_setitem_present _ "process_type");
    [| rewrite !dict_lookup_setitem; reflexivity].
  rewrite (dict_setitem_present _ "threads_per_process");
    [| rewrite !dict_lookup_setitem; reflexivity].
  rewrite (dict_setitem_present _ "thread_type");
    [| rewrite !dict_lookup_setitem; reflexivity].
  reflexivity.
Qed.

End ReqsSetterTwice.

(** X10.  Assigning an accepted resource record a second time changes
    nothing more: for [cpu_reqs] and for [gpu_reqs], the Task after two
    identical accepted assignments is the Task after one. *)
Theorem reqs_setters_idempotent (t : Task) (d : dict) :
  reqs_valid (VDict d) = true ->
  after (set_cpu_reqs (VDict d)) (after (set_cpu_reqs (VDict d)) t)
  = after (set_cpu_reqs (VDict d)) t
  /\ after (set_gpu_reqs (VDict d)) (after (set_gpu_reqs (VDict d)) t)
     = after (set_gpu_reqs (VDict d)) t.
Proof.
  intros H. unfold set_cpu_reqs, set_gpu_reqs.
  split; unfold after at 1 3; f_equal;
    apply reqs_setter_twice; auto.
Qed.

Lemma reqs_setters_idempotent_witness :
  let d := [(lit "processes", VInt 4); (lit "thread_type", lit "OpenMP")] in
  reqs_valid (VDict d) = true
  /\ after (set_cpu_reqs (VDict d)) (after (set_cpu_reqs (VDict d)) fresh0)
     = after (set_cpu_reqs (VDict d)) fresh0
  /\ after (set_gpu_reqs (VDict d)) (after (set_gpu_reqs (VDict d)) fresh0)
     = after (set_gpu_reqs (VDict d)) fresh0.
Proof.
  intros d. split; [reflexivity |].
  apply (reqs_setters_idempotent fresh0 d). reflexivity.
Defined.

(** ** Validating a described Task *)

Lemma raises_validate (t : Task) :
  raises _validate t
  = negb (is_ (_state t) states.INITIAL) || is_empty (_executable t).
Proof.
  unfold raises, outcome, _validate, bind, read, read_uid, raise, ret.
  simpl.
  destruct (is_ (_state t) states.INITIAL); simpl;
    destruct (_executable t); simpl; destruct (_uid t); reflexivity.
Qed.

(** X11.  A newly constructed Task that has been through any script
    without a state assignment and without [from_dict] fails validation
    exactly when its executable is the empty list; and once a [str] is
    assigned as its executable it validates, even if the string is
    empty. *)
Theorem described_task_validation (duplicate : bool) (fresh_uid : string)
    (os : list op) (interned : bool) (s : string) :
  forallb keeps_state os = true ->
  let t := run_ops os (Task_init duplicate fresh_uid) in
  raises _validate t = is_empty (executable t)
  /\ raises _validate (after (set_executable (VStr interned s)) t) = false.
Proof.
  intros Hos t.
  assert (Hs : _state t = states.INITIAL).
  { pose proof (run_ops_preserves
                  (fun self => (_state self, _state_history self))
                  keeps_state op_preserves_state_and_history os
                  (Task_init duplicate fresh_uid) Hos) as H.
    now injection H as H _. }
  split.
  - rewrite raises_validate, Hs. reflexivity.
  - rewrite raises_validate. simpl. rewrite Hs. reflexivity.
Qed.

Lemma described_task_validation_witness :
  let os := [Assign a_name (lit "sleeper");
             Assign a_arguments (VList [lit "30"])] in
  forallb keeps_state os = true
  /\ raises _validate (run_ops os fresh0)
     = is_empty (executable (run_ops os fresh0))
  /\ raises _validate
       (after (set_executable (VStr true "")) (run_ops os fresh0))
     = false.
Proof.
  intros os. split; [reflexivity |].
  apply (described_task_validation false "radical.entk.task.0000" os true "").
  reflexivity.
Defined.

(** ** Shared data: from file names to staging directives *)

Lemma split_length (sep : ascii) (s : string) :
  length (split sep s) = S (count sep s).
Proof.
  induction s as [| c s IH]; simpl.
  - reflexivity.
  - destruct (Ascii.eqb c sep); simpl.
    + now rewrite IH.
    + destruct (split sep s); simpl in *; [discriminate | exact IH].
Qed.

Lemma concat_split (sep : ascii) (s : string) :
  String.concat (String sep EmptyString) (split sep s) = s.
Proof.
  induction s as [| c s IH]; simpl.
  - reflexivity.
  - pose proof (split_length sep s) as Hlen.
    destruct (Ascii.eqb c sep) eqn:E.
    + apply Ascii.eqb_eq in E. subst c.
      destruct (split sep s) as [| p ps]; [discriminate |].
      simpl in *. now rewrite IH.
    + destruct (split sep s) as [| p ps]; [discriminate |].
      destruct ps as [| q ps]; simpl in *; now rewrite <- IH.
Qed.

Lemma split_without_sep (sep : ascii) (s : string) :
  count sep s = 0 -> split sep s = [s].
Proof.
  induction s as [| c s IH]; simpl; intros H.
  - reflexivity.
  - destruct (Ascii.eqb c sep); [discriminate |].
    now rewrite IH.
Qed.

Lemma last_split_app (sep : ascii) (d n x : string) :
  last (split sep (d ++ String sep n)%string) x = last (split sep n) x.
Proof.
  induction d as [| c d IH]; simpl.
  - rewrite Ascii.eqb_refl.
    pose proof (split_length sep n) as Hlen.
    destruct (split sep n); [discriminate | reflexivity].
  - pose proof (split_length sep (d ++ String sep n)) as Hlen.
    destruct (Ascii.eqb c sep).
    + destruct (split sep (d ++ String sep n)) as [| p ps];
        [discriminate | exact IH].
    + destruct (split sep (d ++ String sep n)) as [| p ps];
        [discriminate |].
      rewrite <- IH.
      destruct ps as [| q ps]; [| reflexivity].
      exfalso. clear IH. simpl in Hlen.
      assert (Hc : 1 <= count sep (d ++ String sep n)).
      { clear. induction d as [| c' d IHd]; simpl.
        - rewrite Ascii.eqb_refl. lia.
        - lia. }
      lia.
Qed.

Lemma basename_join (d n : string) :
  count "/" n = 0 -> basename (d ++ "/" ++ n) = n.
Proof.
  intros H. unfold basename.
  change (d ++ "/" ++ n)%string with (d ++ String "/" n)%string.
  rewrite last_split_app, (split_without_sep _ _ H). reflexivity.
Qed.

(** X12.  The name under which [allocate] looks up a shared file: a name
    that starts with a dot and has at most two dots in all has its first
    character replaced by the current working directory; every other
    name, an absolute one or one with three dots or more, is used as it
    is.  So [./data/in.txt] becomes [cwd/data/in.txt], while [.profile]
    becomes [cwd] followed by [profile] without a slash, [../in] becomes
    [cwd./in], and [./in.tar.gz] stays relative. *)
Theorem shared_path_closed_form (cwd f : string) :
  shared_path cwd f
  = if startswith_dot f && (count "." f <=? 2)%nat
    then (cwd ++ tail f)%string
    else f.
Proof.
  destruct f as [| c r]; [reflexivity |].
  unfold shared_path. simpl.
  destruct (Ascii.eqb c ".") eqn:E; [| reflexivity].
  pose proof (split_length "." r) as Hlen.
  pose proof (concat_split "." r) as Hcat.
  destruct (split "." r) as [| p1 [| p2 [| p3 l]]]; simpl in *.
  - discriminate.
  - injection Hlen as Hlen. rewrite <- Hlen. simpl. now subst.
  - injection Hlen as Hlen. rewrite <- Hlen. simpl. now subst.
  - injection Hlen as Hlen. rewrite <- Hlen. reflexivity.
Qed.

(** X13.  The staging target of a shared file is its last path component
    alone: for a name [d/n] that does not start with a dot, [n] without a
    slash, the directive reads the file [d/n] and writes it to
    [staging:///n], so that files of the same name from different
    directories are staged onto one another. *)
Theorem shared_target_is_last_component (cwd d n : string) :
  startswith_dot (d ++ "/" ++ n) = false ->
  count "/" n = 0 ->
  shared_dict cwd (d ++ "/" ++ n)
  = {| source := ("file://" ++ d ++ "/" ++ n)%string;
       target := ("staging:///" ++ n)%string;
       action := TRANSFER |}.
Proof.
  intros Hdot Hn. unfold shared_dict, shared_path.
  rewrite Hdot. cbv zeta. now rewrite (basename_join d n Hn).
Qed.

Lemma shared_target_is_last_component_witness :
  startswith_dot ("/home/user/run1" ++ "/" ++ "input.dat") = false
  /\ count "/" "input.dat" = 0
  /\ shared_dict "/home/user" ("/home/user/run1" ++ "/" ++ "input.dat")
     = {| source := ("file://" ++ "/home/user/run1" ++ "/" ++ "input.dat")%string;
          target := ("staging:///" ++ "input.dat")%string;
          action := TRANSFER |}.
Proof.
  split; [reflexivity |]. split; [reflexivity |].
  apply (shared_target_is_last_component "/home/user" "/home/user/run1"
           "input.dat"); reflexivity.
Defined.

Lemma shared_path_relative (cwd n : string) :
  count "." n <= 1 ->
  shared_path cwd ("./" ++ n) = (cwd ++ "/" ++ n)%string.
Proof.
  intros Hd. unfold shared_path. simpl.
  pose proof (split_length "." n) as Hlen.
  pose proof (concat_split "." n) as Hcat.
  destruct (split "." n) as [| p1 [| p2 [| p3 l]]]; simpl in *.
  - discriminate.
  - now subst.
  - now subst.
  - lia.
Qed.

(** X14.  A file named relative to the working directory, [./n] with [n]
    free of slashes and with at most one dot, is read from [cwd/n] and
    staged to [staging:///n]. *)
Theorem shared_dict_relative (cwd n : string) :
  count "/" n = 0 ->
  count "." n <= 1 ->
  shared_dict cwd ("./" ++ n)
  = {| source := ("file://" ++ cwd ++ "/" ++ n)%string;
       target := ("staging:///" ++ n)%string;
       action := TRANSFER |}.
Proof.
  intros Hs Hd. unfold shared_dict.
  rewrite (shared_path_relative cwd n Hd).
  cbv zeta. now rewrite (basename_join cwd n Hs).
Qed.

Lemma shared_dict_relative_witness :
  count "/" "input.dat" = 0
  /\ count "." "input.dat" <= 1
  /\ shared_dict "/home/user" ("./" ++ "input.dat")
     = {| source := ("file://" ++ "/home/user" ++ "/" ++ "input.dat")%string;
          target := ("staging:///" ++ "input.dat")%string;
          action := TRANSFER |}.
Proof.
  split; [reflexivity |]. split; [simpl; lia |].
  apply (shared_dict_relative "/home/user" "input.dat");
    [reflexivity | simpl; lia].
Defined.

(** ** [from_dict]: the attributes it does not touch *)

Lemma preserves_load_str_absent {A} (f : Task -> A) d k assign :
  dict_lookup d k = None -> preserves f (load_str d k assign).
Proof. intros H. unfold load_str. rewrite H. apply preserves_ret. Qed.

Lemma preserves_load_list_absent {A} (f : Task -> A) d k assign :
  dict_lookup d k = None -> preserves f (load_list d k assign).
Proof. intros H. unfold load_list. rewrite H. apply preserves_ret. Qed.

Lemma preserves_load_dict_absent {A} (f : Task -> A) d k assign :
  dict_lookup d k = None -> preserves f (load_dict d k assign).
Proof. intros H. unfold load_dict. rewrite H. apply preserves_ret. Qed.

Lemma preserves_load_if_true_absent {A} (f : Task -> A) d k test assign :
  dict_lookup d k = None -> preserves f (load_if_true d k test assign).
Proof. intros H. unfold load_if_true. rewrite H. apply preserves_ret. Qed.

(** Walk down [from_dict], the entry under the absent key being
    skipped. *)
Ltac frame_walk_absent :=
  repeat first
    [ apply preserves_if
    | apply preserves_bind; [ | let b := fresh "b" in intro b ]
    | apply preserves_load_str_absent; assumption
    | apply preserves_load_list_absent; assumption
    | apply preserves_load_dict_absent; assumption
    | apply preserves_load_if_true_absent; assumption
    | solve [ auto with frame ]
    | match goal with
      | |- preserves _ (match dict_lookup ?d "state" with _ => _ end) =>
          destruct (dict_lookup d "state")
      end ].

(** X15.  [from_dict] writes an attribute only if the dictionary has its
    key, the state excepted (which is reset when its key is absent): an
    attribute other than the state whose key is not in the dictionary
    reads the same after the call, whether the call succeeded or
    raised. *)
Theorem from_dict_frame (a : attr) (d : dict) (t : Task) :
  a <> a_state ->
  dict_lookup d (key_of a) = None ->
  attribute a (after (from_dict d) t) = attribute a t.
Proof.
  intros Ha Hk.
  revert t. change (preserves (attribute a) (from_dict d)).
  destruct a; try (exfalso; apply Ha; reflexivity); simpl in Hk;
    unfold from_dict, attribute, uid, name, pre_exec, executable, arguments,
      post_exec, cpu_reqs, gpu_reqs, upload_input_data, copy_input_data,
      link_input_data, copy_output_data, download_output_data, exit_code,
      path, parent_stage, parent_pipeline;
    frame_walk_absent.
Qed.

Lemma from_dict_frame_witness :
  let d := [(lit "name", VInt 7); (lit "path", lit "/scratch/unit.000001")] in
  a_exit_code <> a_state
  /\ dict_lookup d (key_of a_exit_code) = None
  /\ attribute a_exit_code (after (from_dict d) done0)
     = attribute a_exit_code done0.
Proof.
  intros d. split; [discriminate |]. split; [reflexivity |].
  apply (from_dict_frame a_exit_code d done0); [discriminate | reflexivity].
Defined.

(** ** Validation and the recorded states *)

(** X16.  Along a script without [from_dict], once the last [str]
    assigned to the state is not the INITIAL constant, validation fails,
    whatever the executable. *)
Theorem validation_fails_past_initial (os : list op) (t : Task) :
  no_from_dict os = true ->
  is_ (last (assigned_states os) (state t)) states.INITIAL = false ->
  raises _validate (run_ops os t) = true.
Proof.
  intros Hos Hlast.
  destruct (run_ops_history os t Hos) as [_ Hs].
  rewrite raises_validate, Hs. unfold state in Hlast.
  now rewrite Hlast.
Qed.

Lemma validation_fails_past_initial_witness :
  no_from_dict full_run = true
  /\ is_ (last (assigned_states full_run) (state fresh0)) states.INITIAL
     = false
  /\ raises _validate (run_ops full_run fresh0) = true.
Proof.
  split; [reflexivity |]. split; [reflexivity |].
  apply (validation_fails_past_initial full_run fresh0); reflexivity.
Defined.

(** ** The timing scan of [extract_timing_info] *)

(** One entry's effect on a time variable, flags and [continue] left
    aside. *)
Lemma body_fields (v : utils.scan_vars) (e : utils.history_entry) :
  let pick (p : string -> bool) (x : utils.tvar) :=
    if p (utils.state e) then
      match utils.timestamp e with Some ts => utils.Stamp ts | None => x end
    else x in
  utils.id_start (utils.body v e) = pick utils.input_start (utils.id_start v)
  /\ utils.id_stop (utils.body v e)
     = pick (fun s => String.eqb s "PendingExecution") (utils.id_stop v)
  /\ utils.od_start (utils.body v e)
     = pick utils.output_start (utils.od_start v)
  /\ utils.od_stop (utils.body v e)
     = pick (fun s => String.eqb s "Done") (utils.od_stop v).
Proof.
  destruct e as [s ts]. destruct v as [a b c d fi fo].
  unfold utils.body, utils.body_execution, utils.body_output,
    utils.body_done, utils.take, utils.input_start, utils.output_start.
  cbn [utils.state utils.timestamp].
  destruct (String.eqb s "PendingInputStaging") eqn:E1;
    [apply String.eqb_eq in E1; subst s;
     destruct ts, fi; repeat split; reflexivity |].
  destruct (String.eqb s "StagingInput") eqn:E2;
    [apply String.eqb_eq in E2; subst s;
     destruct ts; repeat split; reflexivity |].
  destruct (String.eqb s "PendingExecution") eqn:E3;
    [apply String.eqb_eq in E3; subst s;
     destruct ts; repeat split; reflexivity |].
  destruct (String.eqb s "PendingAgentOutputStaging") eqn:E4;
    [apply String.eqb_eq in E4; subst s;
     destruct ts, fo; repeat split; reflexivity |].
  destruct (String.eqb s "AgentStagingOutput") eqn:E5;
    [apply String.eqb_eq in E5; subst s;
     destruct ts; repeat split; reflexivity |].
  destruct (String.eqb s "Done") eqn:E6;
    [apply String.eqb_eq in E6; subst s;
     destruct ts; repeat split; reflexivity |].
  cbn. rewrite ?E5, ?E6. cbn. repeat split; reflexivity.
Qed.

Lemma scan_from (h : list utils.history_entry) (v : utils.scan_vars) :
  let w := fold_left utils.body h v in
  utils.id_start w = utils.last_stamp_from utils.input_start (utils.id_start v) h
  /\ utils.id_stop w
     = utils.last_stamp_from (fun s => String.eqb s "PendingExecution")
         (utils.id_stop v) h
  /\ utils.od_start w
     = utils.last_stamp_from utils.output_start (utils.od_start v) h
  /\ utils.od_stop w
     = utils.last_stamp_from (fun s => String.eqb s "Done")
         (utils.od_stop v) h.
Proof.
  revert v. induction h as [| e h IH]; intros v.
  - repeat split; reflexivity.
  - destruct (body_fields v e) as (H1 & H2 & H3 & H4).
    destruct (IH (utils.body v e)) as (I1 & I2 & I3 & I4).
    cbn zeta in *. unfold utils.last_stamp_from in *. simpl fold_left.
    rewrite I1, I2, I3, I4, H1, H2, H3, H4.
    repeat split; reflexivity.
Qed.

(** X17.  The time stamps the loop over a unit's state history ends
    with: the input staging start is the stamp of the last stamped entry
    in state PendingInputStaging or StagingInput, the input staging stop
    that of the last stamped PendingExecution entry, the output staging
    start that of the last stamped PendingAgentOutputStaging or
    AgentStagingOutput entry, the output staging stop that of the last
    stamped Done entry, and the integer [0] where there is no such entry.
    The two [missing_state] flags and the two [continue] statements never
    make a difference. *)
Theorem scan_picks_last_stamps (h : list utils.history_entry) :
  utils.id_start (utils.scan h) = utils.last_stamp utils.input_start h
  /\ utils.id_stop (utils.scan h)
     = utils.last_stamp (fun s => String.eqb s "PendingExecution") h
  /\ utils.od_start (utils.scan h) = utils.last_stamp utils.output_start h
  /\ utils.od_stop (utils.scan h)
     = utils.last_stamp (fun s => String.eqb s "Done") h.
Proof. exact (scan_from h utils.initial_vars). Qed.

Lemma last_stamp_from_is_stamp (p : string -> bool)
    (h : list utils.history_entry) (init : utils.tvar) :
  match utils.last_stamp_from p init h with
  | utils.Stamp _ => true
  | utils.Int0 => false
  end
  = match init with utils.Stamp _ => true | utils.Int0 => false end
    || utils.has_stamp p h.
Proof.
  revert init. induction h as [| e h IH]; intros init.
  - simpl. now rewrite orb_false_r.
  - unfold utils.last_stamp_from in *. simpl fold_left. rewrite IH.
    simpl utils.has_stamp.
    destruct (p (utils.state e)), (utils.timestamp e), init;
      simpl; try reflexivity; now rewrite ?orb_true_r.
Qed.

Lemma unit_error_complete (u : utils.compute_unit) :
  match utils.unit_error u with None => true | Some _ => false end
  = utils.complete u.
Proof.
  unfold utils.unit_error, utils.complete, utils.execution_times,
    utils.scan.
  pose proof (scan_from (utils.state_history u) utils.initial_vars) as H.
  cbv zeta in H. destruct H as (H1 & H2 & H3 & H4).
  cbv zeta.
  rewrite H1, H2, H3, H4. unfold utils.last_stamp.
  pose proof (last_stamp_from_is_stamp utils.input_start
                (utils.state_history u) utils.Int0) as L1.
  pose proof (last_stamp_from_is_stamp
                (fun s => String.eqb s "PendingExecution")
                (utils.state_history u) utils.Int0) as L2.
  pose proof (last_stamp_from_is_stamp utils.output_start
                (utils.state_history u) utils.Int0) as L3.
  pose proof (last_stamp_from_is_stamp (fun s => String.eqb s "Done")
                (utils.state_history u) utils.Int0) as L4.
  simpl orb in L1, L2, L3, L4.
  rewrite <- L1, <- L2, <- L3, <- L4.
  destruct (utils.start_time u), (utils.stop_time u); simpl;
    repeat match goal with
           | |- context [utils.last_stamp_from ?p ?i ?h] =>
               destruct (utils.last_stamp_from p i h); simpl
           end; reflexivity.
Qed.

(** X18.  The loop over the units raises nothing exactly when every unit
    is complete: it has a start and a stop time, and its state history
    has a time-stamped entry for the start of input staging, for
    PendingExecution, for the start of output staging and for Done.  A
    single unit short of one of these makes [extract_timing_info]
    raise. *)
Theorem timing_error_iff_incomplete (units : list utils.compute_unit) :
  match utils.timing_error units with None => true | Some _ => false end
  = forallb utils.complete units.
Proof.
  induction units as [| u units IH]; [reflexivity |].
  simpl. rewrite <- IH, <- unit_error_complete.
  destruct (utils.unit_error u); reflexivity.
Qed.
